(** * Sathi Connect Care: schema, row-level security and chat client

    A shallow embedding of
    - the Supabase migration (src/unnamed/part_001): the tables
      [profiles], [chat_conversations], [chat_messages], [appointments]
      and their row-level-security (RLS) policies, under PostgreSQL's
      RLS semantics: an INSERT whose row fails a WITH CHECK expression
      raises an error, a SELECT or UPDATE silently skips the rows that
      fail the USING expression, and an UPDATE policy without WITH CHECK
      re-applies its USING expression to the new row and raises an error
      when it fails;
    - the client components (src/unnamed/part_000): [AppointmentDashboard]
      ([fetchAppointments], [createAppointment], [canJoinCall]) and
      [ChatInterface] ([fetchConversations], [fetchMessages],
      [fetchMessageWithSender], the realtime subscription, [sendMessage]).

    UUIDs are modelled as [nat], timestamps as [Z] milliseconds since the
    epoch (the value of [Date.prototype.getTime]), JavaScript strings as
    lists of UTF-16 code units. *)

From Stdlib Require Import List Bool Arith ZArith Lia Sorted Permutation.
Import ListNotations.
Open Scope bool_scope.

Definition uuid := nat.
Definition timestamptz := Z.
Definition js_string := list N.

(** ** Rows *)

(** [CREATE TYPE public.user_role AS ENUM ('student', 'counselor', 'admin')] *)
Inductive user_role := student | counselor | admin.

Definition user_role_eqb (a b : user_role) : bool :=
  match a, b with
  | student, student | counselor, counselor | admin, admin => true
  | _, _ => false
  end.

(** [profiles]; [role] is nullable ([DEFAULT 'student'], no NOT NULL). *)
Record profile := mkProfile {
  p_id : uuid;
  p_role : option user_role;
  p_is_active : option bool
}.

Inductive conversation_status := cs_active | cs_ended | cs_archived.

(** [chat_conversations] *)
Record chat_conversation := mkConversation {
  c_id : uuid;
  c_student_id : uuid;
  c_counselor_id : uuid;
  c_status : option conversation_status;
  c_last_message_at : option timestamptz
}.

Inductive message_type := mt_text | mt_file | mt_image | mt_video.
Inductive message_status := ms_sent | ms_delivered | ms_read.

(** [chat_messages]; [created_at] is filled by its default [NOW()]
    (the client never sends it). *)
Record chat_message := mkMessage {
  m_id : uuid;
  m_conversation_id : uuid;
  m_sender_id : uuid;
  m_message_type : option message_type;
  m_content : option js_string;
  m_status : option message_status;
  m_created_at : timestamptz
}.

Inductive appointment_type := at_chat | at_video | at_in_person.
Inductive appointment_status :=
  st_scheduled | st_confirmed | st_in_progress | st_completed | st_cancelled.

Definition appointment_type_eqb (a b : appointment_type) : bool :=
  match a, b with
  | at_chat, at_chat | at_video, at_video | at_in_person, at_in_person => true
  | _, _ => false
  end.

Definition appointment_status_eqb (a b : appointment_status) : bool :=
  match a, b with
  | st_scheduled, st_scheduled | st_confirmed, st_confirmed
  | st_in_progress, st_in_progress | st_completed, st_completed
  | st_cancelled, st_cancelled => true
  | _, _ => false
  end.

(** [appointments]: [scheduled_start] and [scheduled_end] are
    [TIMESTAMPTZ NOT NULL]; the table declares no CHECK relating them. *)
Record appointment := mkAppointment {
  a_id : uuid;
  a_student_id : uuid;
  a_counselor_id : uuid;
  a_conversation_id : option uuid;
  a_appointment_type : option appointment_type;
  a_status : option appointment_status;
  a_scheduled_start : timestamptz;
  a_scheduled_end : timestamptz
}.

(** The database: one list per table. *)
Record db := mkDb {
  profiles : list profile;
  chat_conversations : list chat_conversation;
  chat_messages : list chat_message;
  appointments : list appointment
}.

Definition set_chat_conversations (d : db) (t : list chat_conversation) : db :=
  mkDb (profiles d) t (chat_messages d) (appointments d).
Definition set_chat_messages (d : db) (t : list chat_message) : db :=
  mkDb (profiles d) (chat_conversations d) t (appointments d).
Definition set_appointments (d : db) (t : list appointment) : db :=
  mkDb (profiles d) (chat_conversations d) (chat_messages d) t.

(** ** Responses of the storage layer *)

Inductive db_error :=
  | PolicyDenied          (** "new row violates row-level security policy" *)
  | UniqueViolation       (** a duplicate primary key *)
  | ForeignKeyViolation   (** a REFERENCES constraint fails *)
  | NotSingle.            (** [.single()] on a result without exactly one row *)

Inductive response (A : Type) :=
  | Ok (a : A)
  | Err (e : db_error).
Arguments Ok {A} a.
Arguments Err {A} e.

(** ** Generic RLS semantics of one table *)

Section Rls.
Context {R : Type}.

(** SELECT: rows failing the USING expression are filtered out. *)
Definition rls_select (using_expr : R -> bool) (t : list R) : list R :=
  filter using_expr t.

(** INSERT: the new row must pass WITH CHECK, else the statement fails
    and the table is unchanged. *)
Definition rls_insert (check_expr : R -> bool) (t : list R) (r : R)
  : list R * response unit :=
  if check_expr r then (t ++ [r], Ok tt) else (t, Err PolicyDenied).

(** UPDATE ... SET f WHERE sel: the target rows are those matching [sel]
    that pass USING; every updated row must pass WITH CHECK, else the
    whole statement fails and the table is unchanged. The result is the
    number of rows updated. *)
Definition rls_update (using_expr check_expr : R -> bool) (sel : R -> bool)
    (f : R -> R) (t : list R) : list R * response nat :=
  let hit r := sel r && using_expr r in
  if existsb (fun r => hit r && negb (check_expr (f r))) t
  then (t, Err PolicyDenied)
  else (map (fun r => if hit r then f r else r) t,
        Ok (length (filter hit t))).

(** PostgREST [.single()] *)
Definition single (l : list R) : response R :=
  match l with
  | [r] => Ok r
  | _ => Err NotSingle
  end.
End Rls.

(** ** Integrity constraints *)

(** Statements of a table whose primary key is [key]. The constraints
    are checked after the policy: on INSERT the primary key, then the
    foreign keys ([refs_ok] of the new row); on UPDATE the primary key of
    each row whose key changed, then the foreign keys of the columns that
    changed ([changed_refs_ok old new]; PostgreSQL skips the check of a
    foreign key whose columns are unchanged) and, for a row whose key
    changed, the rows of other tables still referring to the old key
    ([referenced], ON UPDATE NO ACTION). Any violation fails the
    statement and leaves the table unchanged. The checks do not see RLS. *)
Section Checked.
Context {R : Type} (key : R -> nat).

Definition key_count (k : nat) (t : list R) : nat :=
  length (filter (fun x => Nat.eqb (key x) k) t).

Definition insert_checked (check_expr refs_ok : R -> bool) (t : list R) (r : R)
  : list R * response unit :=
  if negb (check_expr r) then (t, Err PolicyDenied)
  else if Nat.ltb 0 (key_count (key r) t) then (t, Err UniqueViolation)
  else if negb (refs_ok r) then (t, Err ForeignKeyViolation)
  else (t ++ [r], Ok tt).

Definition update_checked (using_expr check_expr : R -> bool)
    (changed_refs_ok : R -> R -> bool) (referenced : nat -> bool)
    (sel : R -> bool) (f : R -> R) (t : list R) : list R * response nat :=
  let hit r := sel r && using_expr r in
  let t' := map (fun r => if hit r then f r else r) t in
  let key_changed r := negb (Nat.eqb (key (f r)) (key r)) in
  if existsb (fun r => hit r && negb (check_expr (f r))) t
  then (t, Err PolicyDenied)
  else if existsb (fun r => hit r && key_changed r && Nat.ltb 1 (key_count (key (f r)) t')) t
  then (t, Err UniqueViolation)
  else if existsb (fun r => hit r && (negb (changed_refs_ok r (f r)) ||
                                      (key_changed r && referenced (key r) &&
                                       Nat.eqb (key_count (key r) t') 0))) t
  then (t, Err ForeignKeyViolation)
  else (t', Ok (length (filter hit t))).
End Checked.

(** The REFERENCES clauses of [chat_conversations] and [appointments]. *)
Definition is_profile_id (d : db) (x : uuid) : bool :=
  existsb (fun p => Nat.eqb (p_id p) x) (profiles d).

Definition is_conversation_id (d : db) (x : uuid) : bool :=
  existsb (fun c => Nat.eqb (c_id c) x) (chat_conversations d).

Definition conversation_refs_ok (d : db) (c : chat_conversation) : bool :=
  is_profile_id d (c_student_id c) && is_profile_id d (c_counselor_id c).

Definition conversation_changed_refs_ok (d : db) (old new : chat_conversation) : bool :=
  (Nat.eqb (c_student_id new) (c_student_id old) || is_profile_id d (c_student_id new)) &&
  (Nat.eqb (c_counselor_id new) (c_counselor_id old) || is_profile_id d (c_counselor_id new)).

(** [chat_messages.conversation_id] and [appointments.conversation_id]
    refer to [chat_conversations.id]. *)
Definition conversation_referenced (d : db) (k : uuid) : bool :=
  existsb (fun m => Nat.eqb (m_conversation_id m) k) (chat_messages d) ||
  existsb (fun a => match a_conversation_id a with Some x => Nat.eqb x k | None => false end)
          (appointments d).

(** [conversation_id] may be NULL. *)
Definition conversation_ref_ok (d : db) (x : option uuid) : bool :=
  match x with Some k => is_conversation_id d k | None => true end.

Definition option_uuid_eqb (x y : option uuid) : bool :=
  match x, y with
  | Some a, Some b => Nat.eqb a b
  | None, None => true
  | _, _ => false
  end.

Definition appointment_refs_ok (d : db) (a : appointment) : bool :=
  is_profile_id d (a_student_id a) && is_profile_id d (a_counselor_id a) &&
  conversation_ref_ok d (a_conversation_id a).

Definition appointment_changed_refs_ok (d : db) (old new : appointment) : bool :=
  (Nat.eqb (a_student_id new) (a_student_id old) || is_profile_id d (a_student_id new)) &&
  (Nat.eqb (a_counselor_id new) (a_counselor_id old) || is_profile_id d (a_counselor_id new)) &&
  (option_uuid_eqb (a_conversation_id new) (a_conversation_id old) ||
   conversation_ref_ok d (a_conversation_id new)).

(** Only [video_call_sessions.appointment_id] refers to [appointments.id];
    that table is kept apart from [db] (see [select_video_sessions]), so
    no row of [db] refers to an appointment. *)
Definition appointment_referenced (d : db) (k : uuid) : bool := false.

(** ** Policies (part_001) *)

(** [auth.uid() = x]: with no authenticated user [auth.uid()] is NULL
    and the comparison is not true. *)
Definition uid_is (uid : option uuid) (x : uuid) : bool :=
  match uid with
  | Some u => Nat.eqb u x
  | None => false
  end.

(** "Users can view own conversations" and
    "Participants can update conversations" (same expression). *)
Definition conversation_select_policy (uid : option uuid) (c : chat_conversation) : bool :=
  uid_is uid (c_student_id c) || uid_is uid (c_counselor_id c).

(** "Students can create conversations" *)
Definition conversation_insert_policy (uid : option uuid) (c : chat_conversation) : bool :=
  uid_is uid (c_student_id c).

(** The EXISTS sub-query of the message policies; it reads
    [chat_conversations] under that table's own SELECT policy. *)
Definition participant_of_conversation (uid : option uuid)
    (convs : list chat_conversation) (conversation_id : uuid) : bool :=
  existsb (fun c => Nat.eqb (c_id c) conversation_id
                    && (uid_is uid (c_student_id c) || uid_is uid (c_counselor_id c)))
          (rls_select (conversation_select_policy uid) convs).

(** "Users can view messages in their conversations" *)
Definition message_select_policy (uid : option uuid)
    (convs : list chat_conversation) (m : chat_message) : bool :=
  participant_of_conversation uid convs (m_conversation_id m).

(** "Users can insert messages in their conversations" *)
Definition message_insert_policy (uid : option uuid)
    (convs : list chat_conversation) (m : chat_message) : bool :=
  uid_is uid (m_sender_id m) && participant_of_conversation uid convs (m_conversation_id m).

(** "Users can view own appointments" and
    "Participants can update appointments" (same expression). *)
Definition appointment_select_policy (uid : option uuid) (a : appointment) : bool :=
  uid_is uid (a_student_id a) || uid_is uid (a_counselor_id a).

(** "Students can create appointments" *)
Definition appointment_insert_policy (uid : option uuid) (a : appointment) : bool :=
  uid_is uid (a_student_id a).

(** ** Statements on the tables *)

Definition insert_message (uid : option uuid) (d : db) (m : chat_message)
  : db * response unit :=
  let '(t, r) := rls_insert (message_insert_policy uid (chat_conversations d))
                            (chat_messages d) m in
  (set_chat_messages d t, r).

Definition select_messages (uid : option uuid) (d : db) : list chat_message :=
  rls_select (message_select_policy uid (chat_conversations d)) (chat_messages d).

Definition select_conversations (uid : option uuid) (d : db) : list chat_conversation :=
  rls_select (conversation_select_policy uid) (chat_conversations d).

Definition insert_conversation (uid : option uuid) (d : db) (c : chat_conversation)
  : db * response unit :=
  let '(t, r) := insert_checked c_id (conversation_insert_policy uid) (conversation_refs_ok d)
                                (chat_conversations d) c in
  (set_chat_conversations d t, r).

Definition update_conversations (uid : option uuid) (d : db)
    (sel : chat_conversation -> bool) (f : chat_conversation -> chat_conversation)
  : db * response nat :=
  let '(t, r) := update_checked c_id (conversation_select_policy uid)
                                (conversation_select_policy uid)
                                (conversation_changed_refs_ok d) (conversation_referenced d)
                                sel f (chat_conversations d) in
  (set_chat_conversations d t, r).

Definition select_appointments (uid : option uuid) (d : db) : list appointment :=
  rls_select (appointment_select_policy uid) (appointments d).

Definition insert_appointment (uid : option uuid) (d : db) (a : appointment)
  : db * response unit :=
  let '(t, r) := insert_checked a_id (appointment_insert_policy uid) (appointment_refs_ok d)
                                (appointments d) a in
  (set_appointments d t, r).

Definition update_appointments (uid : option uuid) (d : db)
    (sel : appointment -> bool) (f : appointment -> appointment)
  : db * response nat :=
  let '(t, r) := update_checked a_id (appointment_select_policy uid)
                                (appointment_select_policy uid)
                                (appointment_changed_refs_ok d) (appointment_referenced d)
                                sel f (appointments d) in
  (set_appointments d t, r).

(** The row of [chat_messages] enriched with [sender:profiles( * )]. *)
Definition enriched_message := (chat_message * option profile)%type.

Definition enrich (d : db) (m : chat_message) : enriched_message :=
  (m, find (fun p => Nat.eqb (p_id p) (m_sender_id m)) (profiles d)).

(** The query of [fetchMessageWithSender]:
    [select( *, sender:profiles( * )).eq('id', messageId).single()]. *)
Definition fetch_message_by_id (uid : option uuid) (d : db) (mid : uuid)
  : response enriched_message :=
  single (map (enrich d) (filter (fun m => Nat.eqb (m_id m) mid) (select_messages uid d))).

(** ** AppointmentDashboard (part_000) *)

(** [appointment.status !== 'cancelled'] on the nullable [status]. *)
Definition status_not_cancelled (s : option appointment_status) : bool :=
  match s with
  | Some st => negb (appointment_status_eqb st st_cancelled)
  | None => true
  end.

(** [appointment.appointment_type === 'video'] on the nullable column. *)
Definition type_is_video (t : option appointment_type) : bool :=
  match t with
  | Some ty => appointment_type_eqb ty at_video
  | None => false
  end.

(** [canJoinCall]; [now] is [new Date()] as milliseconds, and the row's
    timestamps are those of [new Date(appointment.scheduled_start)] and
    [new Date(appointment.scheduled_end)]. *)
Definition canJoinCall (now : Z) (appointment : appointment) : bool :=
  let startTime := a_scheduled_start appointment in
  let endTime := a_scheduled_end appointment in
  let joinTime := (startTime - 15 * 60000)%Z in
  Z.geb now joinTime && Z.leb now endTime &&
  status_not_cancelled (a_status appointment) &&
  type_is_video (a_appointment_type appointment).

(** The booking form [appointmentForm]. The inputs [counselor_id],
    [scheduled_start] and [scheduled_end] are strings that are either
    empty ([None] here) or hold a counselor id, respectively a
    [datetime-local] value, which the database parses to the instant
    kept here. *)
Record appointment_form := mkAppointmentForm {
  form_counselor_id : option uuid;
  form_appointment_type : appointment_type;
  form_scheduled_start : option timestamptz;
  form_scheduled_end : option timestamptz;
  form_is_emergency : bool
}.

Inductive create_outcome :=
  | RequiredFieldsMissing          (** the "Please fill in all required fields" toast *)
  | CreateResponse (r : response unit).

(** [createAppointment]; [uid] is the session's [auth.uid()], [new_id]
    the [gen_random_uuid()] default of the new row. Columns the client
    does not send take their defaults: [status] is 'scheduled',
    [conversation_id] is NULL. *)
Definition createAppointment (uid : option uuid) (profile : option profile)
    (appointmentForm : appointment_form) (new_id : uuid) (d : db)
  : db * create_outcome :=
  match profile, form_counselor_id appointmentForm,
        form_scheduled_start appointmentForm, form_scheduled_end appointmentForm with
  | Some p, Some counselor_id, Some scheduled_start, Some scheduled_end =>
      let row := mkAppointment new_id (p_id p) counselor_id None
                   (Some (form_appointment_type appointmentForm)) (Some st_scheduled)
                   scheduled_start scheduled_end in
      let '(d', r) := insert_appointment uid d row in
      (d', CreateResponse r)
  | _, _, _, _ => (d, RequiredFieldsMissing)
  end.

(** A participant's update of the schedule of one appointment. *)
Definition reschedule (start end_ : timestamptz) (a : appointment) : appointment :=
  mkAppointment (a_id a) (a_student_id a) (a_counselor_id a) (a_conversation_id a)
                (a_appointment_type a) (a_status a) start end_.

(** ** ChatInterface (part_000) *)

(** [String.prototype.trim]: WhiteSpace and LineTerminator code units. *)
Definition is_js_whitespace (c : N) : bool :=
  match c with
  | 9 | 10 | 11 | 12 | 13 | 32 | 160 | 5760 | 8232 | 8233 | 8239 | 8287
  | 12288 | 65279 => true
  | _ => N.leb 8192 c && N.leb c 8202
  end%N.

Fixpoint drop_js_whitespace (s : js_string) : js_string :=
  match s with
  | c :: s' => if is_js_whitespace c then drop_js_whitespace s' else s
  | [] => []
  end.

Definition js_trim (s : js_string) : js_string :=
  rev (drop_js_whitespace (rev (drop_js_whitespace s))).

(** The component state of [ChatInterface] used here. *)
Record chat_state := mkChatState {
  selectedConversation : option uuid;
  messages : list enriched_message;
  newMessage : js_string
}.

(** Requests the client sends to the storage layer, in issue order. *)
Inductive request :=
  | ReqInsertMessage (conversation_id sender_id : uuid) (content : js_string)
  | ReqUpdateLastMessageAt (conversation_id : uuid) (last_message_at : timestamptz).

Inductive toast := ToastSendFailed.

(** The client and the storage it talks to. *)
Record world := mkWorld {
  w_db : db;
  w_chat : chat_state;
  w_trace : list request;
  w_toasts : list toast
}.

(** What the environment supplies to one run of [sendMessage]: the id and
    the [NOW()] the database gives the new message, and the client's
    [new Date()] read after the insert has resolved. *)
Record send_env := mkSendEnv {
  env_new_id : uuid;
  env_insert_now : timestamptz;
  env_client_now : timestamptz
}.

Module Client.
(** A state monad over [world]. *)
Definition M (A : Type) := world -> A * world.
Definition ret {A} (a : A) : M A := fun w => (a, w).
Definition bind {A B} (m : M A) (k : A -> M B) : M B :=
  fun w => let '(a, w') := m w in k a w'.
Notation "x <- m ;; k" := (bind m (fun x => k)) (at level 61, m at next level, right associativity).

Definition get : M world := fun w => (w, w).

Definition issue (q : request) : M unit :=
  fun w => (tt, mkWorld (w_db w) (w_chat w) (w_trace w ++ [q]) (w_toasts w)).

Definition set_db (d : db) : M unit :=
  fun w => (tt, mkWorld d (w_chat w) (w_trace w) (w_toasts w)).

Definition show_toast (t : toast) : M unit :=
  fun w => (tt, mkWorld (w_db w) (w_chat w) (w_trace w) (w_toasts w ++ [t])).

Definition setNewMessage (s : js_string) : M unit :=
  fun w => (tt, mkWorld (w_db w)
                  (mkChatState (selectedConversation (w_chat w)) (messages (w_chat w)) s)
                  (w_trace w) (w_toasts w)).

(** [supabase.from('chat_messages').insert({...})], awaited. *)
Definition insertMessage (uid : option uuid) (mid : uuid) (created_at : timestamptz)
    (conversation_id sender_id : uuid) (content : js_string)
  : M (response unit) :=
  _ <- issue (ReqInsertMessage conversation_id sender_id content) ;;
  w <- get ;;
  let row := mkMessage mid conversation_id sender_id (Some mt_text) (Some content)
                       (Some ms_sent) created_at in
  let '(d', r) := insert_message uid (w_db w) row in
  _ <- set_db d' ;;
  ret r.

(** [supabase.from('chat_conversations').update({ last_message_at })
    .eq('id', conversation_id)], awaited. *)
Definition updateLastMessageAt (uid : option uuid) (conversation_id : uuid)
    (t : timestamptz) : M (response nat) :=
  _ <- issue (ReqUpdateLastMessageAt conversation_id t) ;;
  w <- get ;;
  let '(d', r) := update_conversations uid (w_db w)
                    (fun c => Nat.eqb (c_id c) conversation_id)
                    (fun c => mkConversation (c_id c) (c_student_id c) (c_counselor_id c)
                                             (c_status c) (Some t)) in
  _ <- set_db d' ;;
  ret r.
End Client.

Import Client.

(** [sendMessage]. A failed insert is thrown and caught into the error
    toast; the response of the update is not inspected. *)
Definition sendMessage (uid : option uuid) (profile : option profile) (env : send_env)
  : Client.M unit :=
  w <- get ;;
  let st := w_chat w in
  match js_trim (newMessage st), selectedConversation st, profile with
  | _ :: _, Some selected, Some p =>
      r <- insertMessage uid (env_new_id env) (env_insert_now env) selected (p_id p)
                         (js_trim (newMessage st)) ;;
      match r with
      | Err _ => show_toast ToastSendFailed
      | Ok _ =>
          _ <- updateLastMessageAt uid selected (env_client_now env) ;;
          setNewMessage []
      end
  | _, _, _ => ret tt
  end.

(** ** Role-scoped list queries *)

Inductive column := col_student_id | col_counselor_id.

(** The [.eq(column, value)] filter added to the list queries;
    [value] is [profile?.id], undefined when no profile is loaded. *)
Record eq_filter := mkEqFilter {
  filter_column : column;
  filter_value : option uuid
}.

(** [profile?.role === 'student'] *)
Definition role_is_student (profile : option profile) : bool :=
  match profile with
  | Some p => match p_role p with
              | Some r => user_role_eqb r student
              | None => false
              end
  | None => false
  end.

(** The filter [fetchAppointments] puts on its [appointments] query
    (which is also ordered by [scheduled_start]). *)
Definition fetchAppointments_filter (profile : option profile) : eq_filter :=
  if role_is_student profile
  then mkEqFilter col_student_id (option_map p_id profile)
  else mkEqFilter col_counselor_id (option_map p_id profile).

(** The filter [fetchConversations] puts on its [chat_conversations]
    query (which is also ordered by [last_message_at] descending). *)
Definition fetchConversations_filter (profile : option profile) : eq_filter :=
  if role_is_student profile
  then mkEqFilter col_student_id (option_map p_id profile)
  else mkEqFilter col_counselor_id (option_map p_id profile).

(** ** Realtime message merge *)

(** ORDER BY created_at ASC, by insertion; rows with equal [created_at]
    keep their table order. *)
Fixpoint insert_by_created_at (e : enriched_message) (l : list enriched_message)
  : list enriched_message :=
  match l with
  | [] => [e]
  | x :: l' =>
      if Z.leb (m_created_at (fst e)) (m_created_at (fst x)) then e :: l
      else x :: insert_by_created_at e l'
  end.

Definition order_by_created_at (l : list enriched_message) : list enriched_message :=
  fold_right insert_by_created_at [] l.

(** The result of [fetchMessages(conversationId)]:
    [select( *, sender:profiles( * )).eq('conversation_id', conversationId)
     .order('created_at', { ascending: true })]. *)
Definition fetchMessages_result (uid : option uuid) (d : db) (conversationId : uuid)
  : list enriched_message :=
  order_by_created_at
    (map (enrich d)
       (filter (fun m => Nat.eqb (m_conversation_id m) conversationId) (select_messages uid d))).

(** The chat view with the requests of [fetchMessageWithSender] still
    awaiting their response. *)
Record chat_client := mkChatClient {
  cc_state : chat_state;
  cc_inflight : list uuid
}.

(** Events the view reacts to while a conversation is selected. *)
Inductive chat_event :=
  | LoadDone                 (** the response of [fetchMessages] arrives *)
  | Notify (mid : uuid)      (** an INSERT payload; calls [fetchMessageWithSender(mid)] *)
  | FetchDone (mid : uuid).  (** the response of that fetch arrives *)

Fixpoint remove_first (x : uuid) (l : list uuid) : list uuid :=
  match l with
  | [] => []
  | y :: l' => if Nat.eqb x y then l' else y :: remove_first x l'
  end.

Definition set_messages (st : chat_state) (ms : list enriched_message) : chat_state :=
  mkChatState (selectedConversation st) ms (newMessage st).

(** One event; [d] is the database the storage layer answers from. *)
Definition chat_step (uid : option uuid) (d : db) (cc : chat_client) (ev : chat_event)
  : chat_client :=
  let st := cc_state cc in
  match ev with
  | LoadDone =>
      match selectedConversation st with
      | Some cid => mkChatClient (set_messages st (fetchMessages_result uid d cid))
                                 (cc_inflight cc)
      | None => cc
      end
  | Notify mid => mkChatClient st (cc_inflight cc ++ [mid])
  | FetchDone mid =>
      if existsb (Nat.eqb mid) (cc_inflight cc) then
        let inflight := remove_first mid (cc_inflight cc) in
        match fetch_message_by_id uid d mid with
        | Ok data => mkChatClient (set_messages st (messages st ++ [data])) inflight
        | Err _ => mkChatClient st inflight
        end
      else cc
  end.

Definition chat_run (uid : option uuid) (d : db) (cc : chat_client) (evs : list chat_event)
  : chat_client :=
  fold_left (chat_step uid d) evs cc.

(** The merge of one notification: the payload and the response of its
    follow-up fetch. *)
Definition merge_notification (uid : option uuid) (d : db) (cc : chat_client) (mid : uuid)
  : chat_client :=
  chat_run uid d cc [Notify mid; FetchDone mid].

(** ** Profiles policies (part_001) *)

(** "Users can view all profiles": [USING (TRUE)]. *)
Definition profile_select_policy (uid : option uuid) (p : profile) : bool := true.

(** "Users can update own profile" and "Users can insert own profile". *)
Definition profile_update_policy (uid : option uuid) (p : profile) : bool :=
  uid_is uid (p_id p).
Definition profile_insert_policy (uid : option uuid) (p : profile) : bool :=
  uid_is uid (p_id p).

Definition set_profiles (d : db) (t : list profile) : db :=
  mkDb t (chat_conversations d) (chat_messages d) (appointments d).

Definition select_profiles (uid : option uuid) (d : db) : list profile :=
  rls_select (profile_select_policy uid) (profiles d).

Definition insert_profile (uid : option uuid) (d : db) (p : profile) : db * response unit :=
  let '(t, r) := rls_insert (profile_insert_policy uid) (profiles d) p in
  (set_profiles d t, r).

Definition update_profiles (uid : option uuid) (d : db)
    (sel : profile -> bool) (f : profile -> profile) : db * response nat :=
  let '(t, r) := rls_update (profile_update_policy uid) (profile_update_policy uid)
                            sel f (profiles d) in
  (set_profiles d t, r).

(** ** Video call sessions (part_001) *)

(** [video_call_sessions]; [participants] is the JSONB array the client
    sends ([profile?.id], [null] when undefined). *)
Record video_call_session := mkVideoCallSession {
  vs_id : uuid;
  vs_appointment_id : option uuid;
  vs_room_id : js_string;
  vs_participants : list (option uuid);
  vs_call_started_at : option timestamptz
}.

(** "Users can view sessions for their appointments": the sub-query reads
    [appointments] under that table's SELECT policy; a NULL
    [appointment_id] matches no appointment. *)
Definition video_session_select_policy (uid : option uuid) (appts : list appointment)
    (s : video_call_session) : bool :=
  match vs_appointment_id s with
  | Some aid =>
      existsb (fun a => Nat.eqb (a_id a) aid
                        && (uid_is uid (a_student_id a) || uid_is uid (a_counselor_id a)))
              (rls_select (appointment_select_policy uid) appts)
  | None => false
  end.

Definition select_video_sessions (uid : option uuid) (d : db)
    (sessions : list video_call_session) : list video_call_session :=
  rls_select (video_session_select_policy uid (appointments d)) sessions.

(** ** More of AppointmentDashboard and ChatInterface *)

(** [isUpcoming = new Date(appointment.scheduled_start) > new Date()] *)
Definition isUpcoming (now : Z) (appointment : appointment) : bool :=
  Z.gtb (a_scheduled_start appointment) now.

(** An UPDATE [{ status: s }] of an appointment. *)
Definition set_status (s : appointment_status) (a : appointment) : appointment :=
  mkAppointment (a_id a) (a_student_id a) (a_counselor_id a) (a_conversation_id a)
                (a_appointment_type a) (Some s) (a_scheduled_start a) (a_scheduled_end a).

(** A conversation with [student:profiles( * )] and [counselor:profiles( * )]. *)
Definition enriched_conversation := (chat_conversation * option profile * option profile)%type.

Definition enrich_conversation (d : db) (c : chat_conversation) : enriched_conversation :=
  (c, find (fun p => Nat.eqb (p_id p) (c_student_id c)) (profiles d),
      find (fun p => Nat.eqb (p_id p) (c_counselor_id c)) (profiles d)).

Inductive conversation_toast := ConversationStarted | ConversationFailed.

Record conversation_view := mkConversationView {
  cv_conversations : list enriched_conversation;
  cv_selected : option uuid;
  cv_toasts : list conversation_toast
}.

Definition conversation_failed (v : conversation_view) : conversation_view :=
  mkConversationView (cv_conversations v) (cv_selected v) (cv_toasts v ++ [ConversationFailed]).

(** [createConversation(counselorId)]: insert, then [.select(...).single()]
    on the new row, which must pass the SELECT policy too (otherwise the
    statement fails and is rolled back). With no profile, [student_id] is
    undefined, dropped from the request body, and the NOT NULL column
    rejects the row. [now] is the [NOW()] default of [last_message_at]. *)
Definition createConversation (uid : option uuid) (profile : option profile)
    (counselorId new_id : uuid) (now : timestamptz) (d : db) (v : conversation_view)
  : db * conversation_view :=
  match profile with
  | None => (d, conversation_failed v)
  | Some p =>
      let row := mkConversation new_id (p_id p) counselorId (Some cs_active) (Some now) in
      let '(d', r) := insert_conversation uid d row in
      match r with
      | Ok _ =>
          match single (map (enrich_conversation d')
                          (rls_select (conversation_select_policy uid) [row])) with
          | Ok data =>
              (d', mkConversationView (data :: cv_conversations v)
                                      (Some (c_id (fst (fst data))))
                                      (cv_toasts v ++ [ConversationStarted]))
          | Err _ => (d, conversation_failed v)
          end
      | Err _ => (d', conversation_failed v)
      end
  end.

(** ** Example database used by the concrete checks *)

Definition ex_student : uuid := 10.
Definition ex_counselor : uuid := 20.
Definition ex_third : uuid := 30.

Definition ex_conversation : chat_conversation :=
  mkConversation 1 ex_student ex_counselor (Some cs_active) None.

Definition ex_hello : js_string := [72; 101; 108; 108; 111]%N.

Definition ex_message : chat_message :=
  mkMessage 5 1 ex_student (Some mt_text) (Some ex_hello) (Some ms_sent) 1000%Z.

(** 2025-01-01T10:00:00Z and 10:30 *)
Definition ex_T : timestamptz := 1735725600000%Z.

Definition ex_appointment : appointment :=
  mkAppointment 7 ex_student ex_counselor None (Some at_video) (Some st_scheduled)
                ex_T (ex_T + 30 * 60000)%Z.

Definition ex_db : db :=
  mkDb [mkProfile ex_student (Some student) (Some true);
        mkProfile ex_counselor (Some counselor) (Some true);
        mkProfile ex_third (Some student) (Some true)]
       [ex_conversation] [ex_message] [ex_appointment].

(** * Proofs *)

(** ** Generic facts *)

Lemma uid_is_spec (uid : option uuid) (x : uuid) :
  uid_is uid x = true <-> uid = Some x.
Proof.
  destruct uid as [u|]; simpl; split; intro H; try discriminate.
  - apply Nat.eqb_eq in H; subst; reflexivity.
  - injection H as ->; apply Nat.eqb_refl.
Qed.

Lemma nodup_key_inj {R : Type} (key : R -> nat) (l : list R) (x y : R) :
  NoDup (map key l) -> In x l -> In y l -> key x = key y -> x = y.
Proof.
  induction l as [|a l IH]; simpl; intros Hnd Hx Hy Hk; [contradiction|].
  inversion Hnd as [|? ? Hnin Hnd']; subst.
  destruct Hx as [<-|Hx], Hy as [<-|Hy]; auto.
  - exfalso; apply Hnin; rewrite Hk; apply in_map; exact Hy.
  - exfalso; apply Hnin; rewrite <- Hk; apply in_map; exact Hx.
Qed.

Lemma existsb_only {R : Type} (g : R -> bool) (l : list R) (r : R) :
  In r l -> (forall x, In x l -> g x = true -> x = r) -> existsb g l = g r.
Proof.
  intros Hr Honly.
  destruct (g r) eqn:Eg.
  - apply existsb_exists; eauto.
  - destruct (existsb g l) eqn:E; [|reflexivity].
    apply existsb_exists in E as [x [Hx Gx]].
    rewrite (Honly x Hx Gx) in Gx; congruence.
Qed.

Lemma filter_none {R : Type} (g : R -> bool) (l : list R) :
  (forall x, In x l -> g x = false) -> filter g l = [].
Proof.
  induction l as [|a l IH]; simpl; intros H; [reflexivity|].
  rewrite (H a (or_introl eq_refl)); apply IH; auto.
Qed.

Lemma filter_key_only {R : Type} (key : R -> nat) (g : R -> bool) (l : list R) (r : R) :
  NoDup (map key l) -> In r l -> (forall x, In x l -> g x = true -> key x = key r) ->
  filter g l = if g r then [r] else [].
Proof.
  induction l as [|a l IH]; simpl; intros Hnd Hr Honly; [contradiction|].
  inversion Hnd as [|? ? Hnin Hnd']; subst.
  destruct Hr as [<-|Hr].
  - rewrite (filter_none g l).
    + destruct (g a); reflexivity.
    + intros x Hx; destruct (g x) eqn:Gx; [|reflexivity].
      exfalso; apply Hnin; rewrite <- (Honly x (or_intror Hx) Gx); apply in_map; exact Hx.
  - destruct (g a) eqn:Ga.
    + exfalso; apply Hnin; rewrite (Honly a (or_introl eq_refl) Ga); apply in_map; exact Hr.
    + apply IH; auto.
Qed.

Lemma participant_policy_spec (uid : option uuid) (s c : uuid) :
  uid_is uid s || uid_is uid c = true <-> uid = Some s \/ uid = Some c.
Proof. rewrite orb_true_iff, !uid_is_spec; tauto. Qed.

Lemma set_chat_messages_same (d : db) : set_chat_messages d (chat_messages d) = d.
Proof. destruct d; reflexivity. Qed.

Lemma set_chat_conversations_same (d : db) :
  set_chat_conversations d (chat_conversations d) = d.
Proof. destruct d; reflexivity. Qed.

Lemma set_appointments_same (d : db) : set_appointments d (appointments d) = d.
Proof. destruct d; reflexivity. Qed.

(** ** Message policies *)

Lemma participant_of_conversation_spec (uid : option uuid)
    (convs : list chat_conversation) (C : chat_conversation) (cid : uuid) :
  NoDup (map c_id convs) -> In C convs -> c_id C = cid ->
  participant_of_conversation uid convs cid = true <->
  uid = Some (c_student_id C) \/ uid = Some (c_counselor_id C).
Proof.
  intros Hnd HC Hid; unfold participant_of_conversation, rls_select.
  rewrite existsb_exists; split.
  - intros [c [Hc Hcond]].
    apply filter_In in Hc as [Hc _].
    apply andb_true_iff in Hcond as [Hk Hp].
    apply Nat.eqb_eq in Hk.
    assert (c = C) as -> by (apply (nodup_key_inj c_id convs); [exact Hnd | exact Hc | exact HC | congruence]).
    apply participant_policy_spec; exact Hp.
  - intros Hp; exists C; split.
    + apply filter_In; split; [exact HC|].
      unfold conversation_select_policy; apply participant_policy_spec; exact Hp.
    + apply andb_true_iff; split.
      * apply Nat.eqb_eq; exact Hid.
      * apply participant_policy_spec; exact Hp.
Qed.

Lemma message_insert_policy_spec (uid : option uuid) (convs : list chat_conversation)
    (C : chat_conversation) (M : chat_message) :
  NoDup (map c_id convs) -> In C convs -> c_id C = m_conversation_id M ->
  message_insert_policy uid convs M = true <->
  uid = Some (m_sender_id M) /\
  (m_sender_id M = c_student_id C \/ m_sender_id M = c_counselor_id C).
Proof.
  intros Hnd HC Hid; unfold message_insert_policy.
  rewrite andb_true_iff, uid_is_spec,
          (participant_of_conversation_spec uid convs C _ Hnd HC Hid).
  split.
  - intros [-> [H|H]]; injection H; auto.
  - intros [-> [H|H]]; rewrite H; auto.
Qed.

Lemma message_select_policy_spec (u : uuid) (convs : list chat_conversation)
    (C : chat_conversation) (M : chat_message) :
  NoDup (map c_id convs) -> In C convs -> c_id C = m_conversation_id M ->
  message_select_policy (Some u) convs M = true <->
  u = c_student_id C \/ u = c_counselor_id C.
Proof.
  intros Hnd HC Hid; unfold message_select_policy.
  rewrite (participant_of_conversation_spec _ convs C _ Hnd HC Hid).
  split; [intros [H|H]; injection H; auto | intros [-> | ->]; auto].
Qed.



Lemma filter_filter_andb {R : Type} (p g : R -> bool) (l : list R) :
  filter g (filter p l) = filter (fun x => p x && g x) l.
Proof.
  induction l as [|a l IH]; simpl; [reflexivity|].
  destruct (p a); simpl; [destruct (g a); simpl; rewrite IH; reflexivity | exact IH].
Qed.

(** Reading one message by id, as [fetchMessageWithSender] does: the row
    comes back iff it passes the SELECT policy, and otherwise the reader
    sees no row at all. *)
Lemma fetch_message_by_id_spec (uid : option uuid) (d : db) (M : chat_message) :
  NoDup (map m_id (chat_messages d)) -> In M (chat_messages d) ->
  fetch_message_by_id uid d (m_id M) =
  if message_select_policy uid (chat_conversations d) M
  then Ok (enrich d M) else Err NotSingle.
Proof.
  intros Hnd HM; unfold fetch_message_by_id, select_messages, rls_select.
  rewrite filter_filter_andb.
  rewrite (filter_key_only m_id _ _ M Hnd HM).
  - rewrite Nat.eqb_refl, andb_true_r.
    destruct (message_select_policy uid (chat_conversations d) M); reflexivity.
  - intros x _ Hx; apply andb_true_iff in Hx as [_ Hx]; apply Nat.eqb_eq; exact Hx.
Qed.

(** C2 (amended). For a message [M] of conversation [C] and an acting
    identity [u]: [M] is returned by a read (in the listing of
    [chat_messages], or by id as [fetchMessageWithSender] reads it) iff
    [u] is [C.student_id] or [C.counselor_id], checked through the
    conversation row. For any third profile the row is filtered out: the
    read by id fails with the no-single-row error that a non-existent id
    gives, not with a policy denial. *)
Theorem message_read_iff_participant (u : uuid) (d : db)
    (C : chat_conversation) (M : chat_message) :
  NoDup (map c_id (chat_conversations d)) -> NoDup (map m_id (chat_messages d)) ->
  In C (chat_conversations d) -> In M (chat_messages d) ->
  c_id C = m_conversation_id M ->
  (In M (select_messages (Some u) d) <-> u = c_student_id C \/ u = c_counselor_id C) /\
  (fetch_message_by_id (Some u) d (m_id M) = Ok (enrich d M) <->
     u = c_student_id C \/ u = c_counselor_id C) /\
  (~ (u = c_student_id C \/ u = c_counselor_id C) ->
     fetch_message_by_id (Some u) d (m_id M) = Err NotSingle).
Proof.
  intros Hcnd Hmnd HC HM Hid.
  pose proof (message_select_policy_spec u _ C M Hcnd HC Hid) as Hspec.
  rewrite (fetch_message_by_id_spec _ d M Hmnd HM).
  unfold select_messages, rls_select; rewrite filter_In.
  destruct (message_select_policy (Some u) (chat_conversations d) M) eqn:E.
  - split; [|split]; [tauto | tauto |].
    intros Hn; exfalso; apply Hn, Hspec; reflexivity.
  - split; [|split].
    + split; [intros [_ H]; discriminate | intros H; apply Hspec in H; discriminate].
    + split; [discriminate | intros H; apply Hspec in H; discriminate].
    + intros _; reflexivity.
Qed.

Lemma message_read_iff_participant_witness :
  ~ (ex_third = c_student_id ex_conversation \/ ex_third = c_counselor_id ex_conversation) /\
  fetch_message_by_id (Some ex_third) ex_db (m_id ex_message) = Err NotSingle.
Proof.
  assert (Hn : ~ (ex_third = c_student_id ex_conversation \/
                  ex_third = c_counselor_id ex_conversation))
    by (unfold ex_third, ex_conversation, ex_student, ex_counselor; simpl; lia).
  split; [exact Hn|].
  apply (message_read_iff_participant ex_third ex_db ex_conversation ex_message);
    [ simpl; constructor; [simpl; tauto | constructor]
    | simpl; constructor; [simpl; tauto | constructor]
    | simpl; auto | simpl; auto | reflexivity | exact Hn ].
Defined.

(** C2 as stated fails: the third profile [ex_third] reading the message
    of [ex_conversation] gets no policy denial; the listing simply omits
    the row and the read by id fails with [NotSingle]. *)
Lemma message_read_third_profile_not_denied :
  select_messages (Some ex_third) ex_db = [] /\
  fetch_message_by_id (Some ex_third) ex_db (m_id ex_message) = Err NotSingle /\
  fetch_message_by_id (Some ex_third) ex_db (m_id ex_message) <> Err PolicyDenied.
Proof. vm_compute; split; [reflexivity | split; [reflexivity | discriminate]]. Qed.

(** ** UPDATE of one row selected by its primary key *)

Section UpdateByKey.
Context {R : Type} (key : R -> nat) (pol : R -> bool).
Variables (t : list R) (r : R) (f : R -> R).
Hypothesis Hnd : NoDup (map key t).
Hypothesis Hr : In r t.

Let sel (x : R) : bool := Nat.eqb (key x) (key r).

Lemma update_by_key_only (x : R) : In x t -> sel x = true -> x = r.
Proof.
  intros Hx Hs; apply Nat.eqb_eq in Hs.
  exact (nodup_key_inj key t x r Hnd Hx Hr Hs).
Qed.

Lemma rls_update_by_key :
  rls_update pol pol sel f t =
  if pol r then
    if pol (f r) then (map (fun x => if sel x then f x else x) t, Ok 1)
    else (t, Err PolicyDenied)
  else (t, Ok 0).
Proof.
  unfold rls_update.
  rewrite (existsb_only _ t r Hr).
  2:{ intros x Hx Hg; apply andb_true_iff in Hg as [Hg _];
      apply andb_true_iff in Hg as [Hs _]; exact (update_by_key_only x Hx Hs). }
  rewrite (filter_key_only key _ t r Hnd Hr).
  2:{ intros x _ Hg; apply andb_true_iff in Hg as [Hs _]; apply Nat.eqb_eq; exact Hs. }
  unfold sel at 1 3; rewrite Nat.eqb_refl; simpl.
  destruct (pol r) eqn:Pr; simpl.
  - destruct (pol (f r)); simpl; [|reflexivity].
    f_equal; apply map_ext_in; intros x Hx.
    destruct (sel x) eqn:Sx; simpl; [|reflexivity].
    rewrite (update_by_key_only x Hx Sx), Pr; reflexivity.
  - f_equal; transitivity (map (fun x : R => x) t); [|apply map_id].
    apply map_ext_in; intros x Hx.
    destruct (sel x) eqn:Sx; simpl; [|reflexivity].
    rewrite (update_by_key_only x Hx Sx), Pr; reflexivity.
Qed.
End UpdateByKey.

(** ** Statements checked against the constraints *)

Lemma key_count_zero {R : Type} (key : R -> nat) (k : nat) (t : list R) :
  key_count key k t = 0 <-> ~ In k (map key t).
Proof.
  unfold key_count; induction t as [|a t IH]; simpl; [tauto|].
  destruct (Nat.eqb (key a) k) eqn:E; simpl.
  - apply Nat.eqb_eq in E; split; [discriminate | intros H; exfalso; apply H; left; exact E].
  - rewrite IH; apply Nat.eqb_neq in E.
    split; [intros H [H'|H']; [congruence | contradiction] | intros H H'; apply H; right; exact H'].
Qed.

(** An INSERT is accepted iff the row passes WITH CHECK, its key is new
    and its references exist; otherwise the table is unchanged. *)
Lemma insert_checked_spec {R : Type} (key : R -> nat) (check_expr refs_ok : R -> bool)
    (t : list R) (r : R) :
  (snd (insert_checked key check_expr refs_ok t r) = Ok tt <->
   check_expr r = true /\ ~ In (key r) (map key t) /\ refs_ok r = true) /\
  (snd (insert_checked key check_expr refs_ok t r) = Ok tt ->
   fst (insert_checked key check_expr refs_ok t r) = t ++ [r]) /\
  (snd (insert_checked key check_expr refs_ok t r) <> Ok tt ->
   fst (insert_checked key check_expr refs_ok t r) = t) /\
  (check_expr r = false ->
   insert_checked key check_expr refs_ok t r = (t, Err PolicyDenied)).
Proof.
  unfold insert_checked.
  destruct (check_expr r) eqn:Ec; simpl.
  - destruct (Nat.ltb 0 (key_count key (key r) t)) eqn:Ek; simpl.
    + assert (Hin : In (key r) (map key t)).
      { destruct (in_dec Nat.eq_dec (key r) (map key t)) as [H|H]; [exact H|].
        apply key_count_zero in H; apply Nat.ltb_lt in Ek; lia. }
      split; [split; [discriminate | intros [_ [H _]]; contradiction] |].
      split; [discriminate | split; [reflexivity | discriminate]].
    + assert (Hnin : ~ In (key r) (map key t)).
      { apply key_count_zero; apply Nat.ltb_ge in Ek; lia. }
      destruct (refs_ok r); simpl.
      * split; [tauto | split; [reflexivity | split; [congruence | discriminate]]].
      * split; [split; [discriminate | intros [_ [_ H]]; discriminate] |].
        split; [discriminate | split; [reflexivity | discriminate]].
  - split; [split; [discriminate | intros [H _]; discriminate] |].
    split; [discriminate | split; reflexivity].
Qed.

Section CheckedByKey.
Context {R : Type} (key : R -> nat) (pol : R -> bool) (cro : R -> R -> bool)
        (referenced : nat -> bool).
Variables (t : list R) (r : R) (f : R -> R).
Hypothesis Hnd : NoDup (map key t).
Hypothesis Hr : In r t.

Let sel (x : R) : bool := Nat.eqb (key x) (key r).

Lemma sel_only (x : R) : In x t -> sel x = true -> x = r.
Proof.
  intros Hx Hs; apply Nat.eqb_eq in Hs.
  exact (nodup_key_inj key t x r Hnd Hx Hr Hs).
Qed.

Lemma existsb_sel (h : R -> bool) :
  (forall x, h x = true -> sel x = true) -> existsb h t = h r.
Proof.
  intros Hh; apply existsb_only; [exact Hr|].
  intros x Hx Hx'; exact (sel_only x Hx (Hh x Hx')).
Qed.

Lemma filter_hit : filter (fun x => sel x && pol x) t = if pol r then [r] else [].
Proof.
  rewrite (filter_key_only key _ t r Hnd Hr).
  - unfold sel; rewrite Nat.eqb_refl; reflexivity.
  - intros x _ Hx; apply andb_true_iff in Hx as [Hx _]; apply Nat.eqb_eq; exact Hx.
Qed.

Lemma sel_r : sel r = true.
Proof. unfold sel; apply Nat.eqb_refl. Qed.

Ltac sel_side :=
  intros x Hx; repeat (apply andb_true_iff in Hx as [Hx _]); exact Hx.

(** The caller cannot see the row: nothing is updated. *)
Lemma update_checked_no_match :
  pol r = false ->
  update_checked key pol pol cro referenced sel f t = (t, Ok 0).
Proof.
  intros Hp; unfold update_checked; cbv beta zeta.
  rewrite !existsb_sel by sel_side.
  rewrite sel_r, Hp, filter_hit, Hp; simpl.
  f_equal; transitivity (map (fun x : R => x) t); [|apply map_id].
  apply map_ext_in; intros x Hx.
  destruct (sel x) eqn:Sx; simpl; [|reflexivity].
  rewrite (sel_only x Hx Sx), Hp; reflexivity.
Qed.

(** The new row fails the policy: the statement is refused. *)
Lemma update_checked_denied :
  pol r = true -> pol (f r) = false ->
  update_checked key pol pol cro referenced sel f t = (t, Err PolicyDenied).
Proof.
  intros Hp Hf; unfold update_checked; cbv beta zeta.
  rewrite existsb_sel by sel_side.
  rewrite sel_r, Hp, Hf; reflexivity.
Qed.

(** An update that keeps the key: it takes effect iff the changed
    references exist. *)
Lemma update_checked_same_key :
  pol r = true -> pol (f r) = true -> key (f r) = key r ->
  update_checked key pol pol cro referenced sel f t =
  if cro r (f r) then (map (fun x => if sel x then f x else x) t, Ok 1)
  else (t, Err ForeignKeyViolation).
Proof.
  intros Hp Hf Hk; unfold update_checked; cbv beta zeta.
  rewrite !existsb_sel by sel_side.
  rewrite sel_r, Hp, Hf, Hk, Nat.eqb_refl; simpl.
  destruct (cro r (f r)); simpl; [|reflexivity].
  rewrite filter_hit, Hp; simpl.
  f_equal; apply map_ext_in; intros x Hx.
  destruct (sel x) eqn:Sx; simpl; [|reflexivity].
  rewrite (sel_only x Hx Sx), Hp; reflexivity.
Qed.
End CheckedByKey.

(** ** Conversation and appointment policies *)

Lemma conversation_select_policy_spec (u : uuid) (c : chat_conversation) :
  conversation_select_policy (Some u) c = true <-> u = c_student_id c \/ u = c_counselor_id c.
Proof.
  unfold conversation_select_policy; rewrite participant_policy_spec.
  split; [intros [H|H]; injection H; auto | intros [-> | ->]; auto].
Qed.

Lemma appointment_select_policy_spec (u : uuid) (a : appointment) :
  appointment_select_policy (Some u) a = true <-> u = a_student_id a \/ u = a_counselor_id a.
Proof.
  unfold appointment_select_policy; rewrite participant_policy_spec.
  split; [intros [H|H]; injection H; auto | intros [-> | ->]; auto].
Qed.

Lemma uid_is_some_spec (u x : uuid) : uid_is (Some u) x = true <-> u = x.
Proof. rewrite uid_is_spec; split; [intros H; injection H; auto | intros ->; reflexivity]. Qed.

Lemma option_uuid_eqb_refl (x : option uuid) : option_uuid_eqb x x = true.
Proof. destruct x; simpl; [apply Nat.eqb_refl | reflexivity]. Qed.

(** An update that keeps the referencing columns passes the foreign-key
    checks. *)
Lemma conversation_changed_refs_ok_keep (d : db) (c c' : chat_conversation) :
  c_student_id c' = c_student_id c -> c_counselor_id c' = c_counselor_id c ->
  conversation_changed_refs_ok d c c' = true.
Proof.
  intros H1 H2; unfold conversation_changed_refs_ok; rewrite H1, H2, !Nat.eqb_refl; reflexivity.
Qed.

Lemma appointment_changed_refs_ok_keep (d : db) (a a' : appointment) :
  a_student_id a' = a_student_id a -> a_counselor_id a' = a_counselor_id a ->
  a_conversation_id a' = a_conversation_id a ->
  appointment_changed_refs_ok d a a' = true.
Proof.
  intros H1 H2 H3; unfold appointment_changed_refs_ok.
  rewrite H1, H2, H3, !Nat.eqb_refl, option_uuid_eqb_refl; reflexivity.
Qed.

Lemma insert_conversation_spec (u : uuid) (d : db) (c : chat_conversation) :
  (snd (insert_conversation (Some u) d c) = Ok tt <->
   u = c_student_id c /\ ~ In (c_id c) (map c_id (chat_conversations d)) /\
   conversation_refs_ok d c = true) /\
  (snd (insert_conversation (Some u) d c) = Ok tt ->
   fst (insert_conversation (Some u) d c) =
   set_chat_conversations d (chat_conversations d ++ [c])) /\
  (snd (insert_conversation (Some u) d c) <> Ok tt ->
   fst (insert_conversation (Some u) d c) = d) /\
  (u <> c_student_id c -> insert_conversation (Some u) d c = (d, Err PolicyDenied)).
Proof.
  unfold insert_conversation.
  destruct (insert_checked_spec c_id (conversation_insert_policy (Some u))
              (conversation_refs_ok d) (chat_conversations d) c) as [H1 [H2 [H3 H4]]].
  assert (Hp : conversation_insert_policy (Some u) c = true <-> u = c_student_id c)
    by (unfold conversation_insert_policy; apply uid_is_some_spec).
  destruct (conversation_insert_policy (Some u) c) eqn:E.
  - revert H1 H2 H3; destruct (insert_checked _ _ _ _ _) as [t r]; simpl.
    intros H1 H2 H3.
    split; [rewrite H1; split; [intros [_ H]; split; [apply Hp; reflexivity | exact H] |
                                intros [_ H]; split; [reflexivity | exact H]] |].
    split; [intros H; rewrite (H2 H); reflexivity |].
    split; [intros H; rewrite (H3 H); apply set_chat_conversations_same |].
    intros Hn; exfalso; apply Hn, Hp; reflexivity.
  - rewrite (H4 eq_refl); simpl; rewrite set_chat_conversations_same.
    split; [split; [discriminate | intros [H _]; apply Hp in H; discriminate] |].
    split; [discriminate | split; reflexivity].
Qed.

Lemma insert_appointment_spec (u : uuid) (d : db) (a : appointment) :
  (snd (insert_appointment (Some u) d a) = Ok tt <->
   u = a_student_id a /\ ~ In (a_id a) (map a_id (appointments d)) /\
   appointment_refs_ok d a = true) /\
  (snd (insert_appointment (Some u) d a) = Ok tt ->
   fst (insert_appointment (Some u) d a) = set_appointments d (appointments d ++ [a])) /\
  (snd (insert_appointment (Some u) d a) <> Ok tt ->
   fst (insert_appointment (Some u) d a) = d) /\
  (u <> a_student_id a -> insert_appointment (Some u) d a = (d, Err PolicyDenied)).
Proof.
  unfold insert_appointment.
  destruct (insert_checked_spec a_id (appointment_insert_policy (Some u))
              (appointment_refs_ok d) (appointments d) a) as [H1 [H2 [H3 H4]]].
  assert (Hp : appointment_insert_policy (Some u) a = true <-> u = a_student_id a)
    by (unfold appointment_insert_policy; apply uid_is_some_spec).
  destruct (appointment_insert_policy (Some u) a) eqn:E.
  - revert H1 H2 H3; destruct (insert_checked _ _ _ _ _) as [t r]; simpl.
    intros H1 H2 H3.
    split; [rewrite H1; split; [intros [_ H]; split; [apply Hp; reflexivity | exact H] |
                                intros [_ H]; split; [reflexivity | exact H]] |].
    split; [intros H; rewrite (H2 H); reflexivity |].
    split; [intros H; rewrite (H3 H); apply set_appointments_same |].
    intros Hn; exfalso; apply Hn, Hp; reflexivity.
  - rewrite (H4 eq_refl); simpl; rewrite set_appointments_same.
    split; [split; [discriminate | intros [H _]; apply Hp in H; discriminate] |].
    split; [discriminate | split; reflexivity].
Qed.

(** C3 (amended). For every conversation and every appointment [r] and
    acting identity [u]: [r] is returned by a read iff [u] is
    [r.student_id] or [r.counselor_id]. An insert of [r] is accepted iff
    [u] is [r.student_id], the id of [r] is not yet in the table and the
    rows [r] refers to exist; an accepted insert appends [r], any other
    leaves the table unchanged, and when [u] is not [r.student_id] the
    error is the policy denial. An update of [r] (selected by its id) to a
    row [f r] with the same id: when [u] is no participant of [r] it
    silently matches no row; when [u] is a participant of [r] but not of
    [f r] it fails with a policy denial; when [u] is a participant of both
    it takes effect on that one row if the references it changes exist,
    and fails with a foreign-key violation otherwise. A failed or empty
    update leaves the table unchanged. *)
Theorem conversation_appointment_access (u : uuid) (d : db) :
  ((forall c, In c (chat_conversations d) ->
      (In c (select_conversations (Some u) d) <->
       u = c_student_id c \/ u = c_counselor_id c)) /\
   (forall c, snd (insert_conversation (Some u) d c) = Ok tt <->
      u = c_student_id c /\ ~ In (c_id c) (map c_id (chat_conversations d)) /\
      conversation_refs_ok d c = true) /\
   (forall c, snd (insert_conversation (Some u) d c) = Ok tt ->
      fst (insert_conversation (Some u) d c) =
      set_chat_conversations d (chat_conversations d ++ [c])) /\
   (forall c, snd (insert_conversation (Some u) d c) <> Ok tt ->
      fst (insert_conversation (Some u) d c) = d) /\
   (forall c, u <> c_student_id c -> insert_conversation (Some u) d c = (d, Err PolicyDenied)) /\
   (NoDup (map c_id (chat_conversations d)) ->
    forall c f, In c (chat_conversations d) ->
    let sel x := Nat.eqb (c_id x) (c_id c) in
    ((u = c_student_id c \/ u = c_counselor_id c) ->
     (u = c_student_id (f c) \/ u = c_counselor_id (f c)) ->
     c_id (f c) = c_id c ->
     update_conversations (Some u) d sel f =
       if conversation_changed_refs_ok d c (f c)
       then (set_chat_conversations d
               (map (fun x => if sel x then f x else x) (chat_conversations d)), Ok 1)
       else (d, Err ForeignKeyViolation)) /\
    ((u = c_student_id c \/ u = c_counselor_id c) ->
     ~ (u = c_student_id (f c) \/ u = c_counselor_id (f c)) ->
     update_conversations (Some u) d sel f = (d, Err PolicyDenied)) /\
    (~ (u = c_student_id c \/ u = c_counselor_id c) ->
     update_conversations (Some u) d sel f = (d, Ok 0)))) /\
  ((forall a, In a (appointments d) ->
      (In a (select_appointments (Some u) d) <->
       u = a_student_id a \/ u = a_counselor_id a)) /\
   (forall a, snd (insert_appointment (Some u) d a) = Ok tt <->
      u = a_student_id a /\ ~ In (a_id a) (map a_id (appointments d)) /\
      appointment_refs_ok d a = true) /\
   (forall a, snd (insert_appointment (Some u) d a) = Ok tt ->
      fst (insert_appointment (Some u) d a) = set_appointments d (appointments d ++ [a])) /\
   (forall a, snd (insert_appointment (Some u) d a) <> Ok tt ->
      fst (insert_appointment (Some u) d a) = d) /\
   (forall a, u <> a_student_id a -> insert_appointment (Some u) d a = (d, Err PolicyDenied)) /\
   (NoDup (map a_id (appointments d)) ->
    forall a f, In a (appointments d) ->
    let sel x := Nat.eqb (a_id x) (a_id a) in
    ((u = a_student_id a \/ u = a_counselor_id a) ->
     (u = a_student_id (f a) \/ u = a_counselor_id (f a)) ->
     a_id (f a) = a_id a ->
     update_appointments (Some u) d sel f =
       if appointment_changed_refs_ok d a (f a)
       then (set_appointments d (map (fun x => if sel x then f x else x) (appointments d)), Ok 1)
       else (d, Err ForeignKeyViolation)) /\
    ((u = a_student_id a \/ u = a_counselor_id a) ->
     ~ (u = a_student_id (f a) \/ u = a_counselor_id (f a)) ->
     update_appointments (Some u) d sel f = (d, Err PolicyDenied)) /\
    (~ (u = a_student_id a \/ u = a_counselor_id a) ->
     update_appointments (Some u) d sel f = (d, Ok 0)))).
Proof.
  split; [split; [|split; [|split; [|split; [|split]]]] |
          split; [|split; [|split; [|split; [|split]]]]].
  - intros c Hc; unfold select_conversations, rls_select.
    rewrite filter_In, conversation_select_policy_spec; tauto.
  - intros c; apply (insert_conversation_spec u d c).
  - intros c; apply (insert_conversation_spec u d c).
  - intros c; apply (insert_conversation_spec u d c).
  - intros c; apply (insert_conversation_spec u d c).
  - intros Hnd c f Hc sel; subst sel; cbv beta; unfold update_conversations.
    split; [|split].
    + intros Hp Hpf Hk.
      rewrite (update_checked_same_key c_id (conversation_select_policy (Some u))
                 (conversation_changed_refs_ok d) (conversation_referenced d)
                 (chat_conversations d) c f Hnd Hc);
        [| apply conversation_select_policy_spec; exact Hp
         | apply conversation_select_policy_spec; exact Hpf | exact Hk].
      destruct (conversation_changed_refs_ok d c (f c)); simpl; [reflexivity|].
      rewrite set_chat_conversations_same; reflexivity.
    + intros Hp Hpf.
      destruct (conversation_select_policy (Some u) (f c)) eqn:E2;
        [apply conversation_select_policy_spec in E2; contradiction|].
      rewrite (update_checked_denied c_id (conversation_select_policy (Some u))
                 (conversation_changed_refs_ok d) (conversation_referenced d)
                 (chat_conversations d) c f Hnd Hc);
        [| apply conversation_select_policy_spec; exact Hp | exact E2].
      simpl; rewrite set_chat_conversations_same; reflexivity.
    + intros Hp.
      destruct (conversation_select_policy (Some u) c) eqn:E1;
        [apply conversation_select_policy_spec in E1; contradiction|].
      rewrite (update_checked_no_match c_id (conversation_select_policy (Some u))
                 (conversation_changed_refs_ok d) (conversation_referenced d)
                 (chat_conversations d) c f Hnd Hc E1).
      simpl; rewrite set_chat_conversations_same; reflexivity.
  - intros a Ha; unfold select_appointments, rls_select.
    rewrite filter_In, appointment_select_policy_spec; tauto.
  - intros a; apply (insert_appointment_spec u d a).
  - intros a; apply (insert_appointment_spec u d a).
  - intros a; apply (insert_appointment_spec u d a).
  - intros a; apply (insert_appointment_spec u d a).
  - intros Hnd a f Ha sel; subst sel; cbv beta; unfold update_appointments.
    split; [|split].
    + intros Hp Hpf Hk.
      rewrite (update_checked_same_key a_id (appointment_select_policy (Some u))
                 (appointment_changed_refs_ok d) (appointment_referenced d)
                 (appointments d) a f Hnd Ha);
        [| apply appointment_select_policy_spec; exact Hp
         | apply appointment_select_policy_spec; exact Hpf | exact Hk].
      destruct (appointment_changed_refs_ok d a (f a)); simpl; [reflexivity|].
      rewrite set_appointments_same; reflexivity.
    + intros Hp Hpf.
      destruct (appointment_select_policy (Some u) (f a)) eqn:E2;
        [apply appointment_select_policy_spec in E2; contradiction|].
      rewrite (update_checked_denied a_id (appointment_select_policy (Some u))
                 (appointment_changed_refs_ok d) (appointment_referenced d)
                 (appointments d) a f Hnd Ha);
        [| apply appointment_select_policy_spec; exact Hp | exact E2].
      simpl; rewrite set_appointments_same; reflexivity.
    + intros Hp.
      destruct (appointment_select_policy (Some u) a) eqn:E1;
        [apply appointment_select_policy_spec in E1; contradiction|].
      rewrite (update_checked_no_match a_id (appointment_select_policy (Some u))
                 (appointment_changed_refs_ok d) (appointment_referenced d)
                 (appointments d) a f Hnd Ha E1).
      simpl; rewrite set_appointments_same; reflexivity.
Qed.

(** The update of an appointment that hands it to another student. *)
Definition reassign_student (s : uuid) (a : appointment) : appointment :=
  mkAppointment (a_id a) s (a_counselor_id a) (a_conversation_id a)
                (a_appointment_type a) (a_status a)
                (a_scheduled_start a) (a_scheduled_end a).

(** C3 as stated fails: [ex_student] is the student of [ex_appointment],
    yet the update that sets its [student_id] to 11 is refused, because
    the UPDATE policy's expression is also checked on the new row. *)
Lemma appointment_update_by_participant_denied :
  a_student_id ex_appointment = ex_student /\
  update_appointments (Some ex_student) ex_db
    (fun x => Nat.eqb (a_id x) (a_id ex_appointment)) (reassign_student 11) =
  (ex_db, Err PolicyDenied).
Proof. split; reflexivity. Qed.

(** The counselor of [ex_appointment] moves it one hour later. *)
Lemma conversation_appointment_access_witness :
  NoDup (map a_id (appointments ex_db)) /\
  update_appointments (Some ex_counselor) ex_db
    (fun x => Nat.eqb (a_id x) (a_id ex_appointment))
    (reschedule (ex_T + 3600000)%Z (ex_T + 5400000)%Z) =
  (set_appointments ex_db
     [mkAppointment 7 ex_student ex_counselor None (Some at_video) (Some st_scheduled)
                    (ex_T + 3600000)%Z (ex_T + 5400000)%Z], Ok 1).
Proof.
  assert (Hnd : NoDup (map a_id (appointments ex_db)))
    by (simpl; constructor; [simpl; tauto | constructor]).
  split; [exact Hnd|].
  etransitivity.
  - exact (proj1 (proj2 (proj2 (proj2 (proj2 (proj2
             (proj2 (conversation_appointment_access ex_counselor ex_db)))))) Hnd ex_appointment
             (reschedule (ex_T + 3600000)%Z (ex_T + 5400000)%Z) (or_introl eq_refl))
             (or_intror eq_refl) (or_intror eq_refl) eq_refl).
  - vm_compute; reflexivity.
Defined.

(** ** Join window *)

Definition minutes (n : Z) : Z := (n * 60000)%Z.

(** C4. [canJoinCall t A] holds iff [t >= A.scheduled_start - 15 min],
    [t <= A.scheduled_end], [A.status] is not [cancelled] and
    [A.appointment_type] is [video]. For [A] starting at [T] and ending at
    [T + 30 min], of type video and status scheduled, it holds for [t] in
    [[T - 15 min, T + 30 min]], and not at [T - 16 min], at [T + 31 min],
    nor at any time once the status is [cancelled]. Its result depends
    only on the clock and on these four columns of the row. *)
Theorem canJoinCall_spec :
  (forall (t : Z) (A : appointment),
     canJoinCall t A = true <->
     (a_scheduled_start A - minutes 15 <= t)%Z /\ (t <= a_scheduled_end A)%Z /\
     a_status A <> Some st_cancelled /\ a_appointment_type A = Some at_video) /\
  (forall (T : Z) (id s c : uuid) (conv : option uuid),
     let A := mkAppointment id s c conv (Some at_video) (Some st_scheduled)
                            T (T + minutes 30)%Z in
     let A_cancelled := mkAppointment id s c conv (Some at_video) (Some st_cancelled)
                                      T (T + minutes 30)%Z in
     (forall t, (T - minutes 15 <= t <= T + minutes 30)%Z -> canJoinCall t A = true) /\
     canJoinCall (T - minutes 16)%Z A = false /\
     canJoinCall (T + minutes 31)%Z A = false /\
     (forall t, canJoinCall t A_cancelled = false)) /\
  (forall (t : Z) (A B : appointment),
     a_scheduled_start A = a_scheduled_start B -> a_scheduled_end A = a_scheduled_end B ->
     a_status A = a_status B -> a_appointment_type A = a_appointment_type B ->
     canJoinCall t A = canJoinCall t B).
Proof.
  assert (Hiff : forall (t : Z) (A : appointment),
     canJoinCall t A = true <->
     (a_scheduled_start A - minutes 15 <= t)%Z /\ (t <= a_scheduled_end A)%Z /\
     a_status A <> Some st_cancelled /\ a_appointment_type A = Some at_video).
  { intros t A; unfold canJoinCall, minutes.
    rewrite !andb_true_iff, Z.geb_le, Z.leb_le.
    destruct (a_status A) as [[]|], (a_appointment_type A) as [[]|]; simpl;
      split; intros H; repeat split; try tauto; try lia; try discriminate;
      try (destruct H as [_ [_ [H _]]]; congruence);
      try (destruct H as [_ [_ [_ H]]]; congruence);
      try (destruct H as [[[_ H] _] _]; discriminate);
      try (destruct H as [[_ H] _]; discriminate);
      try (destruct H as [_ H]; discriminate). }
  split; [exact Hiff|split].
  - intros T id s c conv A A_cancelled; subst A A_cancelled; repeat split.
    + intros t Ht; apply (proj2 (Hiff _ _)); unfold minutes in *; simpl; repeat split; try lia; discriminate.
    + destruct (canJoinCall (T - minutes 16)%Z _) eqn:E; [|reflexivity].
      apply (proj1 (Hiff _ _)) in E; simpl in E; unfold minutes in E; lia.
    + destruct (canJoinCall (T + minutes 31)%Z _) eqn:E; [|reflexivity].
      apply (proj1 (Hiff _ _)) in E; simpl in E; unfold minutes in E; lia.
    + intros t; destruct (canJoinCall t _) eqn:E; [|reflexivity].
      apply (proj1 (Hiff _ _)) in E; simpl in E; tauto.
  - intros t A B Hs He Hst Hty; unfold canJoinCall; rewrite Hs, He, Hst, Hty; reflexivity.
Qed.

Example canJoinCall_ex_window :
  canJoinCall (ex_T - minutes 15)%Z ex_appointment = true /\
  canJoinCall (ex_T + minutes 30)%Z ex_appointment = true /\
  canJoinCall (ex_T - minutes 16)%Z ex_appointment = false /\
  canJoinCall (ex_T + minutes 31)%Z ex_appointment = false.
Proof. repeat split; reflexivity. Qed.

Lemma canJoinCall_spec_witness :
  (ex_T - minutes 15 <= ex_T <= ex_T + minutes 30)%Z /\
  canJoinCall ex_T (mkAppointment 7 ex_student ex_counselor None (Some at_video)
                      (Some st_scheduled) ex_T (ex_T + minutes 30)%Z) = true.
Proof.
  assert (H : (ex_T - minutes 15 <= ex_T <= ex_T + minutes 30)%Z)
    by (unfold minutes; lia).
  split; [exact H|].
  exact (proj1 (proj1 (proj2 canJoinCall_spec) ex_T 7 ex_student ex_counselor None) ex_T H).
Defined.

(** ** Order of scheduled_start and scheduled_end *)

(** C5 (amended). No layer enforces [scheduled_start < scheduled_end]:
    [createAppointment] only checks that a profile is loaded and that the
    counselor, start and end fields are filled, and neither the table nor
    its policies relate the two columns. A create by the signed-in
    student, whose profile and the chosen counselor's exist, with a fresh
    id, is accepted for any start and end, and so is a participant's
    update of an appointment's start and end. *)
Theorem appointment_order_not_enforced (u : uuid) (p : profile) (k : uuid)
    (ty : appointment_type) (emergency : bool) (start end_ : timestamptz)
    (new_id : uuid) (d : db) :
  p_id p = u -> is_profile_id d u = true -> is_profile_id d k = true ->
  ~ In new_id (map a_id (appointments d)) ->
  let form := mkAppointmentForm (Some k) ty (Some start) (Some end_) emergency in
  let row := mkAppointment new_id u k None (Some ty) (Some st_scheduled) start end_ in
  createAppointment (Some u) (Some p) form new_id d =
    (set_appointments d (appointments d ++ [row]), CreateResponse (Ok tt)) /\
  (NoDup (map a_id (appointments d)) ->
   forall a, In a (appointments d) -> (u = a_student_id a \/ u = a_counselor_id a) ->
   snd (update_appointments (Some u) d (fun x => Nat.eqb (a_id x) (a_id a))
                            (reschedule start end_)) = Ok 1).
Proof.
  intros Hp Hu Hk Hfresh form row; subst u; split.
  - destruct (insert_appointment_spec (p_id p) d row) as [H1 [H2 _]].
    assert (Hok : snd (insert_appointment (Some (p_id p)) d row) = Ok tt).
    { apply H1; split; [reflexivity|]; split; [exact Hfresh|].
      unfold appointment_refs_ok, row; simpl; rewrite Hu, Hk; reflexivity. }
    specialize (H2 Hok).
    change (createAppointment (Some (p_id p)) (Some p) form new_id d) with
      (let '(d', r) := insert_appointment (Some (p_id p)) d row in (d', CreateResponse r)).
    revert Hok H2; destruct (insert_appointment (Some (p_id p)) d row) as [d' r]; simpl.
    intros -> ->; reflexivity.
  - intros Hnd a Ha Hpart; unfold update_appointments.
    rewrite (update_checked_same_key a_id (appointment_select_policy (Some (p_id p)))
               (appointment_changed_refs_ok d) (appointment_referenced d) (appointments d) a
               (reschedule start end_) Hnd Ha);
      [| apply appointment_select_policy_spec; exact Hpart
       | apply appointment_select_policy_spec; exact Hpart | reflexivity].
    rewrite appointment_changed_refs_ok_keep by reflexivity; reflexivity.
Qed.

Definition ex_student_profile : profile := mkProfile ex_student (Some student) (Some true).

Lemma appointment_order_not_enforced_witness :
  p_id ex_student_profile = ex_student /\
  is_profile_id ex_db ex_student = true /\ is_profile_id ex_db ex_counselor = true /\
  ~ In 8 (map a_id (appointments ex_db)) /\
  snd (createAppointment (Some ex_student) (Some ex_student_profile)
         (mkAppointmentForm (Some ex_counselor) at_video (Some ex_T) (Some ex_T) false) 8 ex_db)
  = CreateResponse (Ok tt).
Proof.
  assert (Hp : p_id ex_student_profile = ex_student) by reflexivity.
  assert (Hu : is_profile_id ex_db ex_student = true) by reflexivity.
  assert (Hk : is_profile_id ex_db ex_counselor = true) by reflexivity.
  assert (Hf : ~ In 8 (map a_id (appointments ex_db))) by (simpl; intros [H|[]]; discriminate).
  split; [exact Hp | split; [exact Hu | split; [exact Hk | split; [exact Hf |]]]].
  rewrite (proj1 (appointment_order_not_enforced ex_student ex_student_profile ex_counselor
                    at_video false ex_T ex_T 8 ex_db Hp Hu Hk Hf)).
  reflexivity.
Defined.

(** C5 as stated fails: the student's booking of an appointment that ends
    before it starts is accepted and stored. *)
Lemma appointment_end_before_start_accepted :
  let d' := fst (createAppointment (Some ex_student) (Some ex_student_profile)
                   (mkAppointmentForm (Some ex_counselor) at_video
                      (Some (ex_T + minutes 30)%Z) (Some ex_T) false) 8 ex_db) in
  snd (createAppointment (Some ex_student) (Some ex_student_profile)
         (mkAppointmentForm (Some ex_counselor) at_video
            (Some (ex_T + minutes 30)%Z) (Some ex_T) false) 8 ex_db) = CreateResponse (Ok tt) /\
  exists a, In a (appointments d') /\ (a_scheduled_start a >= a_scheduled_end a)%Z.
Proof.
  simpl; split; [reflexivity|].
  eexists; split; [right; left; reflexivity|].
  simpl; unfold ex_T, minutes; lia.
Qed.

(** ** sendMessage *)

(** C10. When the trimmed text is empty, no conversation is selected or
    no profile is loaded, [sendMessage] returns at once: no request is
    issued and the database, the component state (the local message list
    included) and the toasts are those it started with. *)
Theorem sendMessage_precondition_noop (uid : option uuid) (profile : option profile)
    (env : send_env) (w : world) :
  js_trim (newMessage (w_chat w)) = [] \/ selectedConversation (w_chat w) = None \/
  profile = None ->
  sendMessage uid profile env w = (tt, w).
Proof.
  intros H; unfold sendMessage, bind, get; simpl.
  destruct H as [-> | [-> | ->]]; [reflexivity | |].
  - destruct (js_trim (newMessage (w_chat w))); reflexivity.
  - destruct (js_trim (newMessage (w_chat w))), (selectedConversation (w_chat w)); reflexivity.
Qed.

Definition ex_chat_blank : chat_state :=
  mkChatState (Some 1) [] [32; 9; 32]%N.

Lemma sendMessage_precondition_noop_witness :
  js_trim (newMessage ex_chat_blank) = [] /\
  sendMessage (Some ex_student) (Some ex_student_profile) (mkSendEnv 6 2000%Z 2005%Z)
    (mkWorld ex_db ex_chat_blank [] []) = (tt, mkWorld ex_db ex_chat_blank [] []).
Proof.
  assert (H : js_trim (newMessage ex_chat_blank) = []) by reflexivity.
  split; [exact H|].
  apply sendMessage_precondition_noop; left; exact H.
Defined.

Definition last_message_at_set (t : timestamptz) (c : chat_conversation) : chat_conversation :=
  mkConversation (c_id c) (c_student_id c) (c_counselor_id c) (c_status c) (Some t).

Lemma sendMessage_run (uid : option uuid) (p : profile) (env : send_env) (w : world)
    (cid : uuid) (ch : N) (rest : js_string) :
  js_trim (newMessage (w_chat w)) = ch :: rest ->
  selectedConversation (w_chat w) = Some cid ->
  let row := mkMessage (env_new_id env) cid (p_id p) (Some mt_text) (Some (ch :: rest))
                       (Some ms_sent) (env_insert_now env) in
  let q1 := ReqInsertMessage cid (p_id p) (ch :: rest) in
  sendMessage uid (Some p) env w =
  if message_insert_policy uid (chat_conversations (w_db w)) row
  then
    let d1 := set_chat_messages (w_db w) (chat_messages (w_db w) ++ [row]) in
    let '(d2, _) := update_conversations uid d1 (fun c => Nat.eqb (c_id c) cid)
                                         (last_message_at_set (env_client_now env)) in
    (tt, mkWorld d2 (mkChatState (Some cid) (messages (w_chat w)) [])
                 (w_trace w ++ [q1; ReqUpdateLastMessageAt cid (env_client_now env)])
                 (w_toasts w))
  else
    (tt, mkWorld (w_db w) (w_chat w) (w_trace w ++ [q1]) (w_toasts w ++ [ToastSendFailed])).
Proof.
  intros Ht Hs row q1; subst row q1.
  unfold sendMessage, bind, get; simpl; rewrite Ht, Hs.
  unfold insertMessage, updateLastMessageAt, issue, set_db, show_toast, setNewMessage,
         bind, get, ret, insert_message, rls_insert; simpl.
  destruct (message_insert_policy _ _ _); simpl.
  - rewrite <- app_assoc; simpl.
    unfold last_message_at_set.
    destruct (update_conversations _ _ _ _); simpl.
    rewrite Hs; reflexivity.
  - rewrite set_chat_messages_same; reflexivity.
Qed.

Lemma update_conversations_messages (uid : option uuid) (d : db) sel f :
  chat_messages (fst (update_conversations uid d sel f)) = chat_messages d.
Proof. unfold update_conversations; destruct (update_checked _ _ _ _ _ _ _ _); reflexivity. Qed.

(** C6 (amended). Once the message insert of [sendMessage] has completed
    successfully, and only then, it issues an update of the owning
    conversation that sets [last_message_at] to the client's clock read
    after the insert returned ([env_client_now]), not to the [created_at]
    the database gave the message ([env_insert_now]); the update takes
    effect. If the insert fails, no conversation update is issued and the
    error toast is shown. *)
Theorem sendMessage_update_after_insert (p : profile) (env : send_env) (w : world)
    (cid : uuid) (C : chat_conversation) :
  js_trim (newMessage (w_chat w)) <> [] ->
  selectedConversation (w_chat w) = Some cid ->
  NoDup (map c_id (chat_conversations (w_db w))) ->
  In C (chat_conversations (w_db w)) -> c_id C = cid ->
  let w' := snd (sendMessage (Some (p_id p)) (Some p) env w) in
  let content := js_trim (newMessage (w_chat w)) in
  let row := mkMessage (env_new_id env) cid (p_id p) (Some mt_text) (Some content)
                       (Some ms_sent) (env_insert_now env) in
  ((p_id p = c_student_id C \/ p_id p = c_counselor_id C) ->
     w_trace w' = w_trace w ++ [ReqInsertMessage cid (p_id p) content;
                                ReqUpdateLastMessageAt cid (env_client_now env)] /\
     chat_messages (w_db w') = chat_messages (w_db w) ++ [row] /\
     In (last_message_at_set (env_client_now env) C) (chat_conversations (w_db w'))) /\
  (~ (p_id p = c_student_id C \/ p_id p = c_counselor_id C) ->
     w_trace w' = w_trace w ++ [ReqInsertMessage cid (p_id p) content] /\
     w_db w' = w_db w /\ w_toasts w' = w_toasts w ++ [ToastSendFailed]).
Proof.
  intros Hne Hs Hnd HC Hid w' content row; subst w' content row.
  destruct (js_trim (newMessage (w_chat w))) as [|ch rest] eqn:Ht; [contradiction|].
  rewrite (sendMessage_run (Some (p_id p)) p env w cid ch rest Ht Hs).
  set (row := mkMessage (env_new_id env) cid (p_id p) (Some mt_text) (Some (ch :: rest))
                        (Some ms_sent) (env_insert_now env)).
  pose proof (message_insert_policy_spec (Some (p_id p)) _ C row Hnd HC Hid) as Hspec.
  destruct (message_insert_policy _ _ row) eqn:E.
  - split.
    + intros Hp.
      cbv zeta; destruct (update_conversations _ _ _ _) as [d2 r2] eqn:Eu; simpl.
      pose proof (update_conversations_messages (Some (p_id p))
                    (set_chat_messages (w_db w) (chat_messages (w_db w) ++ [row]))
                    (fun c => Nat.eqb (c_id c) cid)
                    (last_message_at_set (env_client_now env))) as Hm.
      rewrite Eu in Hm; simpl in Hm.
      assert (Hup : chat_conversations d2 =
                    map (fun x => if Nat.eqb (c_id x) cid
                                  then last_message_at_set (env_client_now env) x else x)
                        (chat_conversations (w_db w))).
      { revert Eu; unfold update_conversations; subst cid.
        assert (E1 : conversation_select_policy (Some (p_id p)) C = true)
          by (apply conversation_select_policy_spec; exact Hp).
        assert (E2 : conversation_select_policy (Some (p_id p))
                       (last_message_at_set (env_client_now env) C) = true)
          by (apply conversation_select_policy_spec; exact Hp).
        rewrite (update_checked_same_key c_id (conversation_select_policy (Some (p_id p)))
                   _ _ _ C _ Hnd HC E1 E2 eq_refl).
        rewrite conversation_changed_refs_ok_keep by reflexivity.
        intros Eu; injection Eu as <- _; reflexivity. }
      split; [reflexivity | split; [exact Hm |]].
      rewrite Hup.
      replace (last_message_at_set (env_client_now env) C) with
        ((fun x => if Nat.eqb (c_id x) cid
                   then last_message_at_set (env_client_now env) x else x) C)
        by (simpl; rewrite Hid, Nat.eqb_refl; reflexivity).
      exact (in_map (fun x : chat_conversation => if Nat.eqb (c_id x) cid
                      then last_message_at_set (env_client_now env) x else x) _ C HC).
    + intros Hn; exfalso; apply Hn; apply Hspec; reflexivity.
  - split.
    + intros Hp; exfalso.
      assert (H : false = true) by (apply Hspec; split; [reflexivity | exact Hp]).
      discriminate.
    + intros _; simpl; repeat split; reflexivity.
Qed.

Definition ex_hi : js_string := [32; 72; 105; 10]%N.

Definition ex_world : world :=
  mkWorld ex_db (mkChatState (Some 1) [] ex_hi) [] [].

Definition ex_send_env : send_env := mkSendEnv 6 2000%Z 2005%Z.

Lemma sendMessage_update_after_insert_witness :
  js_trim (newMessage (w_chat ex_world)) <> [] /\
  w_trace (snd (sendMessage (Some ex_student) (Some ex_student_profile) ex_send_env ex_world)) =
  [ReqInsertMessage 1 ex_student (js_trim ex_hi); ReqUpdateLastMessageAt 1 2005%Z].
Proof.
  assert (Hne : js_trim (newMessage (w_chat ex_world)) <> []) by (vm_compute; discriminate).
  split; [exact Hne|].
  exact (proj1 (proj1 (sendMessage_update_after_insert ex_student_profile ex_send_env ex_world
                         1 ex_conversation Hne eq_refl
                         ltac:(simpl; constructor; [simpl; tauto | constructor])
                         ltac:(simpl; auto) eq_refl)
                 (or_introl eq_refl))).
Defined.

(** C6 as stated fails: the message inserted at database time 2000 leaves
    its conversation with [last_message_at] 2005, the client's clock when
    the update was issued. *)
Lemma sendMessage_last_message_at_not_created_at :
  let w' := snd (sendMessage (Some ex_student) (Some ex_student_profile) ex_send_env ex_world) in
  chat_messages (w_db w') =
    [ex_message; mkMessage 6 1 ex_student (Some mt_text) (Some [72; 105]%N) (Some ms_sent) 2000%Z] /\
  chat_conversations (w_db w') =
    [mkConversation 1 ex_student ex_counselor (Some cs_active) (Some 2005%Z)] /\
  Some 2005%Z <> Some 2000%Z.
Proof. vm_compute; split; [reflexivity | split; [reflexivity | discriminate]]. Qed.

(** ** Query scoping by role *)

(** C9. For every loaded profile whose role is not ['student'] (admin,
    counselor, or a NULL role) the appointment and conversation list
    queries filter on [counselor_id = profile.id]; exactly the profiles
    with role ['student'] filter on [student_id]. These two cases are the
    only ones. *)
Theorem list_queries_scope_by_role (p : profile) :
  (p_role p <> Some student ->
   fetchAppointments_filter (Some p) = mkEqFilter col_counselor_id (Some (p_id p)) /\
   fetchConversations_filter (Some p) = mkEqFilter col_counselor_id (Some (p_id p))) /\
  (p_role p = Some student ->
   fetchAppointments_filter (Some p) = mkEqFilter col_student_id (Some (p_id p)) /\
   fetchConversations_filter (Some p) = mkEqFilter col_student_id (Some (p_id p))) /\
  (forall f, f = fetchAppointments_filter (Some p) \/ f = fetchConversations_filter (Some p) ->
   f = mkEqFilter col_student_id (Some (p_id p)) \/
   f = mkEqFilter col_counselor_id (Some (p_id p))).
Proof.
  unfold fetchAppointments_filter, fetchConversations_filter, role_is_student; simpl.
  destruct (p_role p) as [[]|]; simpl; repeat split; intros; try congruence;
    destruct H as [-> | ->]; auto.
Qed.

Definition ex_admin : profile := mkProfile 40 (Some admin) (Some true).

Lemma list_queries_scope_by_role_witness :
  p_role ex_admin <> Some student /\
  fetchAppointments_filter (Some ex_admin) = mkEqFilter col_counselor_id (Some 40).
Proof.
  assert (H : p_role ex_admin <> Some student) by discriminate.
  split; [exact H|].
  exact (proj1 (proj1 (list_queries_scope_by_role ex_admin) H)).
Defined.

(** ** Realtime message merge *)

Definition created_le (a b : enriched_message) : Prop :=
  (m_created_at (fst a) <= m_created_at (fst b))%Z.

Lemma insert_by_created_at_hdrel (a e : enriched_message) (l : list enriched_message) :
  HdRel created_le a l -> created_le a e -> HdRel created_le a (insert_by_created_at e l).
Proof.
  intros Hh Hae; destruct l as [|y l]; simpl; [constructor; exact Hae|].
  destruct (Z.leb _ _); constructor; [exact Hae|].
  inversion Hh; assumption.
Qed.

Lemma insert_by_created_at_sorted (e : enriched_message) (l : list enriched_message) :
  Sorted created_le l -> Sorted created_le (insert_by_created_at e l).
Proof.
  induction l as [|x l IH]; simpl; intros Hs.
  - repeat constructor.
  - inversion Hs as [|? ? Hs' Hh]; subst.
    destruct (Z.leb (m_created_at (fst e)) (m_created_at (fst x))) eqn:E.
    + constructor; [exact Hs|]; constructor; apply Z.leb_le; exact E.
    + constructor; [apply IH; exact Hs'|].
      apply insert_by_created_at_hdrel; [exact Hh|].
      unfold created_le; apply Z.leb_gt in E; lia.
Qed.

Lemma insert_by_created_at_perm (e : enriched_message) (l : list enriched_message) :
  Permutation (e :: l) (insert_by_created_at e l).
Proof.
  induction l as [|x l IH]; simpl; [reflexivity|].
  destruct (Z.leb _ _); [reflexivity|].
  transitivity (x :: e :: l); [apply perm_swap | apply perm_skip; exact IH].
Qed.

Lemma order_by_created_at_spec (l : list enriched_message) :
  Sorted created_le (order_by_created_at l) /\ Permutation l (order_by_created_at l).
Proof.
  induction l as [|x l [IHs IHp]]; simpl; [split; constructor|].
  split; [apply insert_by_created_at_sorted; exact IHs|].
  transitivity (x :: order_by_created_at l);
    [apply perm_skip; exact IHp | apply insert_by_created_at_perm].
Qed.

Lemma remove_first_in (x y : uuid) (l : list uuid) :
  In x l -> x <> y -> In x (remove_first y l).
Proof.
  induction l as [|z l IH]; simpl; intros Hx Hne; [contradiction|].
  destruct (Nat.eqb y z) eqn:E.
  - apply Nat.eqb_eq in E; subst z; destruct Hx as [->|Hx]; [congruence | exact Hx].
  - destruct Hx as [->|Hx]; [left; reflexivity | right; apply IH; assumption].
Qed.

(** A completed fetch of an in-flight, readable row appends it. *)
Lemma chat_step_fetch_done (uid : option uuid) (d : db) (cc : chat_client) (M : chat_message) :
  NoDup (map m_id (chat_messages d)) -> In M (select_messages uid d) ->
  In (m_id M) (cc_inflight cc) ->
  chat_step uid d cc (FetchDone (m_id M)) =
  mkChatClient (set_messages (cc_state cc) (messages (cc_state cc) ++ [enrich d M]))
               (remove_first (m_id M) (cc_inflight cc)).
Proof.
  intros Hnd Hsel Hin; unfold select_messages, rls_select in Hsel.
  apply filter_In in Hsel as [HM Hpol].
  simpl.
  assert (Hex : existsb (Nat.eqb (m_id M)) (cc_inflight cc) = true)
    by (apply existsb_exists; exists (m_id M); split; [exact Hin | apply Nat.eqb_refl]).
  rewrite Hex, (fetch_message_by_id_spec uid d M Hnd HM), Hpol; reflexivity.
Qed.

Lemma chat_run_fetches (uid : option uuid) (d : db) (cc : chat_client) (Ms : list chat_message) :
  NoDup (map m_id (chat_messages d)) ->
  (forall M, In M Ms -> In M (select_messages uid d)) ->
  NoDup (map m_id Ms) ->
  (forall M, In M Ms -> In (m_id M) (cc_inflight cc)) ->
  messages (cc_state (chat_run uid d cc (map (fun M => FetchDone (m_id M)) Ms))) =
  messages (cc_state cc) ++ map (enrich d) Ms.
Proof.
  revert cc; induction Ms as [|M Ms IH]; intros cc Hnd Hsel HndMs Hin.
  - simpl; rewrite app_nil_r; reflexivity.
  - inversion HndMs as [|? ? Hnin HndMs']; subst.
    unfold chat_run in *; cbn [map fold_left].
    rewrite (chat_step_fetch_done uid d cc M Hnd (Hsel M (or_introl eq_refl))
               (Hin M (or_introl eq_refl))).
    rewrite IH.
    + simpl; rewrite <- app_assoc; reflexivity.
    + exact Hnd.
    + intros M' HM'; apply Hsel; right; exact HM'.
    + exact HndMs'.
    + intros M' HM'; simpl.
      apply remove_first_in; [apply Hin; right; exact HM'|].
      intros Heq; apply Hnin; rewrite <- Heq; apply in_map; exact HM'.
Qed.

(** C7 (amended). The history is loaded per selected conversation as the
    readable rows of that conversation, enriched with their sender, in
    ascending [created_at] order, and it replaces the local list when the
    query completes. Each realtime insert notification issues a fetch of
    the row by id; when a fetch completes with a readable row, that row
    is appended at the end of the local list as it is then. Rows are
    therefore appended in the order in which the fetches complete, which
    need not be the order in which the notifications arrived. *)
Theorem realtime_merge_order (uid : option uuid) (d : db) :
  (forall cc cid, selectedConversation (cc_state cc) = Some cid ->
     let h := messages (cc_state (chat_step uid d cc LoadDone)) in
     Sorted created_le h /\
     Permutation (map (enrich d)
                    (filter (fun m => Nat.eqb (m_conversation_id m) cid) (select_messages uid d)))
                 h) /\
  (forall cc mid,
     chat_step uid d cc (Notify mid) = mkChatClient (cc_state cc) (cc_inflight cc ++ [mid])) /\
  (NoDup (map m_id (chat_messages d)) ->
   forall cc Ms,
     (forall M, In M Ms -> In M (select_messages uid d)) -> NoDup (map m_id Ms) ->
     (forall M, In M Ms -> In (m_id M) (cc_inflight cc)) ->
     messages (cc_state (chat_run uid d cc (map (fun M => FetchDone (m_id M)) Ms))) =
     messages (cc_state cc) ++ map (enrich d) Ms).
Proof.
  split; [|split].
  - intros cc cid Hs h; subst h; simpl; rewrite Hs; simpl.
    unfold fetchMessages_result.
    apply order_by_created_at_spec.
  - intros cc mid; reflexivity.
  - intros Hnd cc Ms Hsel HndMs Hin; apply chat_run_fetches; assumption.
Qed.

Definition ex_msg6 : chat_message :=
  mkMessage 6 1 ex_student (Some mt_text) (Some ex_hi) (Some ms_sent) 2000%Z.
Definition ex_msg7 : chat_message :=
  mkMessage 7 1 ex_counselor (Some mt_text) (Some ex_hello) (Some ms_sent) 2001%Z.

(** The database once messages 6 and 7 have been inserted. *)
Definition ex_db2 : db :=
  set_chat_messages ex_db [ex_message; ex_msg6; ex_msg7].

(** The student's view of conversation 1 once its history is loaded. *)
Definition ex_view : chat_client :=
  chat_step (Some ex_student) ex_db (mkChatClient (mkChatState (Some 1) [] []) []) LoadDone.

Lemma realtime_merge_order_witness :
  NoDup (map m_id (chat_messages ex_db2)) /\
  messages (cc_state (chat_run (Some ex_student) ex_db2
                        (mkChatClient (cc_state ex_view) [6; 7])
                        (map (fun M => FetchDone (m_id M)) [ex_msg7; ex_msg6]))) =
  messages (cc_state ex_view) ++ map (enrich ex_db2) [ex_msg7; ex_msg6].
Proof.
  assert (Hnd : NoDup (map m_id (chat_messages ex_db2))) by
    (simpl; repeat constructor; simpl; lia).
  split; [exact Hnd|].
  apply (proj2 (proj2 (realtime_merge_order (Some ex_student) ex_db2)) Hnd
           (mkChatClient (cc_state ex_view) [6; 7]) [ex_msg7; ex_msg6]).
  - intros M HM; simpl in HM.
    destruct HM as [<- | [<- | []]]; vm_compute; auto.
  - simpl; repeat constructor; simpl; lia.
  - intros M HM; simpl in HM.
    destruct HM as [<- | [<- | []]]; simpl; auto.
Defined.

(** C7 as stated fails: notifications for 6 and then 7 arrive, the fetch
    of 7 completes first, and 7 ends up before 6 in the local list. *)
Lemma realtime_merge_completion_order :
  messages (cc_state ex_view) = [enrich ex_db ex_message] /\
  messages (cc_state (chat_run (Some ex_student) ex_db2 ex_view
                        [Notify 6; Notify 7; FetchDone 7; FetchDone 6])) =
  [enrich ex_db ex_message; enrich ex_db2 ex_msg7; enrich ex_db2 ex_msg6].
Proof. split; vm_compute; reflexivity. Qed.

(** ** Duplicate delivery *)

Definition count_id (mid : uuid) (l : list enriched_message) : nat :=
  length (filter (fun e => Nat.eqb (m_id (fst e)) mid) l).

Lemma merge_notification_appends (uid : option uuid) (d : db) (cc : chat_client)
    (M : chat_message) :
  NoDup (map m_id (chat_messages d)) -> In M (select_messages uid d) ->
  messages (cc_state (merge_notification uid d cc (m_id M))) =
  messages (cc_state cc) ++ [enrich d M].
Proof.
  intros Hnd Hsel; unfold merge_notification, chat_run; cbn [fold_left].
  change (chat_step uid d cc (Notify (m_id M)))
    with (mkChatClient (cc_state cc) (cc_inflight cc ++ [m_id M])).
  rewrite (chat_step_fetch_done uid d _ M Hnd Hsel).
  - reflexivity.
  - simpl; apply in_or_app; right; left; reflexivity.
Qed.

(** C8. Merging the same insert notification twice into the same local
    list appends the row twice: the number of entries with that id grows
    by two, so a list without the id ends with two entries for it. *)
Theorem merge_notification_not_idempotent (uid : option uuid) (d : db) (cc : chat_client)
    (M : chat_message) :
  NoDup (map m_id (chat_messages d)) -> In M (select_messages uid d) ->
  let cc2 := merge_notification uid d (merge_notification uid d cc (m_id M)) (m_id M) in
  messages (cc_state cc2) = messages (cc_state cc) ++ [enrich d M; enrich d M] /\
  count_id (m_id M) (messages (cc_state cc2)) = count_id (m_id M) (messages (cc_state cc)) + 2 /\
  (count_id (m_id M) (messages (cc_state cc)) = 0 ->
   count_id (m_id M) (messages (cc_state cc2)) = 2).
Proof.
  intros Hnd Hsel cc2.
  assert (Hm : messages (cc_state cc2) = messages (cc_state cc) ++ [enrich d M; enrich d M]).
  { subst cc2; rewrite !(merge_notification_appends uid d _ M Hnd Hsel), <- app_assoc.
    reflexivity. }
  assert (Hc : count_id (m_id M) (messages (cc_state cc2)) =
               count_id (m_id M) (messages (cc_state cc)) + 2).
  { rewrite Hm; unfold count_id; rewrite filter_app, length_app; simpl.
    rewrite Nat.eqb_refl; reflexivity. }
  split; [exact Hm | split; [exact Hc | intros H0; rewrite Hc, H0; reflexivity]].
Qed.

Lemma merge_notification_not_idempotent_witness :
  count_id 6 (messages (cc_state ex_view)) = 0 /\
  count_id 6 (messages (cc_state (merge_notification (Some ex_student) ex_db2
                                   (merge_notification (Some ex_student) ex_db2 ex_view 6) 6))) = 2.
Proof.
  assert (H0 : count_id 6 (messages (cc_state ex_view)) = 0) by (vm_compute; reflexivity).
  split; [exact H0|].
  refine (proj2 (proj2 (merge_notification_not_idempotent (Some ex_student) ex_db2 ex_view
                          ex_msg6 _ _)) H0).
  - simpl; repeat constructor; simpl; lia.
  - vm_compute; auto.
Defined.

(** ** Profiles *)

Lemma profile_update_policy_spec (uid : option uuid) (p : profile) :
  profile_update_policy uid p = true <-> uid = Some (p_id p).
Proof. apply uid_is_spec. Qed.

(** Profiles, "Users can update own profile" (USING without WITH CHECK):
    an update of the profile row [p], selected by its id, by the identity
    [uid] matches no row unless [uid] is [p]'s id; for the owner it
    applies [f] to the row whatever [f] changes (the role included) as
    long as the id stays the owner's, and it is refused with a policy
    denial, leaving the table unchanged, when [f] changes the id. *)
Theorem profile_update_own_row (uid : option uuid) (d : db) (p : profile)
    (f : profile -> profile) :
  NoDup (map p_id (profiles d)) -> In p (profiles d) ->
  let r := update_profiles uid d (fun x => Nat.eqb (p_id x) (p_id p)) f in
  (uid <> Some (p_id p) -> r = (d, Ok 0)) /\
  (uid = Some (p_id p) -> p_id (f p) = p_id p ->
     r = (set_profiles d (map (fun x => if Nat.eqb (p_id x) (p_id p) then f x else x)
                              (profiles d)), Ok 1)) /\
  (uid = Some (p_id p) -> p_id (f p) <> p_id p -> r = (d, Err PolicyDenied)).
Proof.
  intros Hnd Hin r; subst r; unfold update_profiles.
  rewrite (rls_update_by_key p_id (profile_update_policy uid) (profiles d) p f Hnd Hin).
  assert (Hsame : set_profiles d (profiles d) = d) by (destruct d; reflexivity).
  split; [|split].
  - intros Hne.
    destruct (profile_update_policy uid p) eqn:E.
    + apply profile_update_policy_spec in E; contradiction.
    + simpl; rewrite Hsame; reflexivity.
  - intros Hu Hf.
    assert (E1 : profile_update_policy uid p = true) by (apply profile_update_policy_spec; exact Hu).
    assert (E2 : profile_update_policy uid (f p) = true)
      by (apply profile_update_policy_spec; rewrite Hf; exact Hu).
    rewrite E1, E2; reflexivity.
  - intros Hu Hf.
    assert (E1 : profile_update_policy uid p = true) by (apply profile_update_policy_spec; exact Hu).
    destruct (profile_update_policy uid (f p)) eqn:E2.
    + apply profile_update_policy_spec in E2; rewrite Hu in E2.
      injection E2 as E2; congruence.
    + rewrite E1; simpl; rewrite Hsame; reflexivity.
Qed.

Definition promote_to_admin (x : profile) : profile :=
  mkProfile (p_id x) (Some admin) (p_is_active x).

Lemma profile_update_own_row_witness :
  NoDup (map p_id (profiles ex_db)) /\ In ex_student_profile (profiles ex_db) /\
  snd (update_profiles (Some ex_student) ex_db
         (fun x => Nat.eqb (p_id x) (p_id ex_student_profile)) promote_to_admin) = Ok 1.
Proof.
  assert (Hnd : NoDup (map p_id (profiles ex_db))) by (simpl; repeat (constructor; [simpl; intuition discriminate|]); constructor).
  assert (Hin : In ex_student_profile (profiles ex_db)) by (simpl; auto).
  split; [exact Hnd | split; [exact Hin|]].
  rewrite (proj1 (proj2 (profile_update_own_row (Some ex_student) ex_db ex_student_profile
                           promote_to_admin Hnd Hin)) eq_refl eq_refl).
  reflexivity.
Defined.

(** ** Video call sessions *)

(** A video call session is visible to a caller iff the caller is
    authenticated and is the student or the counselor of the appointment
    the session's [appointment_id] refers to; in particular a session
    with no appointment (as [createVideoCall] would write it) is visible
    to nobody. *)
Theorem video_session_visibility (uid : option uuid) (d : db)
    (sessions : list video_call_session) (s : video_call_session) :
  In s (select_video_sessions uid d sessions) <->
  In s sessions /\
  exists u a, uid = Some u /\ In a (appointments d) /\ vs_appointment_id s = Some (a_id a) /\
              (u = a_student_id a \/ u = a_counselor_id a).
Proof.
  unfold select_video_sessions, rls_select; rewrite filter_In.
  unfold video_session_select_policy.
  split.
  - intros [Hs Hp]; split; [exact Hs|].
    destruct (vs_appointment_id s) as [aid|]; [|discriminate].
    apply existsb_exists in Hp as [a [Ha Hc]].
    apply filter_In in Ha as [Ha _].
    apply andb_true_iff in Hc as [Hk Hc]; apply Nat.eqb_eq in Hk; subst aid.
    apply participant_policy_spec in Hc.
    destruct uid as [u|]; [|destruct Hc as [H|H]; discriminate].
    exists u, a; split; [reflexivity | split; [exact Ha | split; [reflexivity|]]].
    destruct Hc as [H|H]; injection H; auto.
  - intros [Hs [u [a [-> [Ha [Hid Hc]]]]]]; split; [exact Hs|].
    rewrite Hid; apply existsb_exists; exists a.
    assert (Hp : uid_is (Some u) (a_student_id a) || uid_is (Some u) (a_counselor_id a) = true)
      by (apply participant_policy_spec; destruct Hc as [-> | ->]; auto).
    split.
    + apply filter_In; split; [exact Ha | exact Hp].
    + rewrite Nat.eqb_refl; exact Hp.
Qed.

(** ** AppointmentDashboard *)

(** While the "Join Call" button of an appointment is shown, its
    "Upcoming" badge is shown exactly in the 15 minutes before its start,
    and not from its start to its end. *)
Theorem upcoming_while_joinable (now : Z) (a : appointment) :
  canJoinCall now a = true ->
  (isUpcoming now a = true <->
     (a_scheduled_start a - 15 * 60000 <= now < a_scheduled_start a)%Z) /\
  (isUpcoming now a = false <->
     (a_scheduled_start a <= now <= a_scheduled_end a)%Z).
Proof.
  unfold canJoinCall, isUpcoming; intros H.
  apply andb_true_iff in H as [H _]; apply andb_true_iff in H as [H _].
  apply andb_true_iff in H as [H1 H2].
  apply Z.geb_le in H1; apply Z.leb_le in H2.
  rewrite Z.gtb_ltb; split.
  - rewrite Z.ltb_lt; lia.
  - rewrite Z.ltb_ge; lia.
Qed.

Lemma upcoming_while_joinable_witness :
  canJoinCall (ex_T - minutes 5) ex_appointment = true /\
  isUpcoming (ex_T - minutes 5) ex_appointment = true.
Proof.
  assert (H : canJoinCall (ex_T - minutes 5) ex_appointment = true) by (vm_compute; reflexivity).
  split; [exact H|].
  apply (proj2 (proj1 (upcoming_while_joinable (ex_T - minutes 5) ex_appointment H))).
  simpl; unfold ex_T, minutes; lia.
Defined.

(** A participant of an appointment can cancel it: the update of its
    [status] to 'cancelled' (selected by id) takes effect on exactly that
    row, and from then on no "Join Call" button is offered for it at any
    time. *)
Theorem cancel_blocks_join (u : uuid) (d : db) (a : appointment) :
  NoDup (map a_id (appointments d)) -> In a (appointments d) ->
  (u = a_student_id a \/ u = a_counselor_id a) ->
  let r := update_appointments (Some u) d (fun x => Nat.eqb (a_id x) (a_id a))
                               (set_status st_cancelled) in
  snd r = Ok 1 /\ In (set_status st_cancelled a) (appointments (fst r)) /\
  (forall x now, In x (appointments (fst r)) -> a_id x = a_id a -> canJoinCall now x = false).
Proof.
  intros Hnd Ha Hu r; subst r; unfold update_appointments.
  assert (E1 : appointment_select_policy (Some u) a = true)
    by (apply appointment_select_policy_spec; exact Hu).
  assert (E2 : appointment_select_policy (Some u) (set_status st_cancelled a) = true)
    by (apply appointment_select_policy_spec; exact Hu).
  rewrite (update_checked_same_key a_id (appointment_select_policy (Some u))
             (appointment_changed_refs_ok d) (appointment_referenced d) (appointments d) a
             (set_status st_cancelled) Hnd Ha E1 E2 eq_refl).
  rewrite appointment_changed_refs_ok_keep by reflexivity; simpl.
  split; [reflexivity | split].
  - apply in_map_iff; exists a; rewrite Nat.eqb_refl; split; [reflexivity | exact Ha].
  - intros x now Hx Hid; apply in_map_iff in Hx as [y [Hy Hyin]].
    destruct (Nat.eqb (a_id y) (a_id a)) eqn:E.
    + subst x; unfold canJoinCall; simpl; rewrite andb_false_r; reflexivity.
    + subst x; apply Nat.eqb_neq in E; contradiction.
Qed.

Lemma cancel_blocks_join_witness :
  snd (update_appointments (Some ex_counselor) ex_db
         (fun x => Nat.eqb (a_id x) (a_id ex_appointment)) (set_status st_cancelled)) = Ok 1.
Proof.
  refine (proj1 (cancel_blocks_join ex_counselor ex_db ex_appointment _ _ _)).
  - simpl; repeat constructor; simpl; tauto.
  - simpl; auto.
  - right; reflexivity.
Defined.

(** ** createConversation *)

(** [createConversation] by the signed-in user [u] with profile [p]: when
    [u] is [p]'s id, [p] and the chosen counselor have profile rows and the
    new id is unused, the new conversation (with [p] as its student, the
    chosen counselor, status 'active') is stored, put first in the list
    and selected, whatever [p]'s role; when [u] is [p]'s id but one of
    these profiles is missing or the id is taken, or when [u] is not [p]'s
    id, or with no profile loaded, the error toast is shown and neither
    the database, nor the list, nor the selection changes. *)
Theorem createConversation_outcome (u : uuid) (p : profile) (counselorId new_id : uuid)
    (now : timestamptz) (d : db) (v : conversation_view) :
  let row := mkConversation new_id (p_id p) counselorId (Some cs_active) (Some now) in
  (u = p_id p -> is_profile_id d (p_id p) = true -> is_profile_id d counselorId = true ->
   ~ In new_id (map c_id (chat_conversations d)) ->
   createConversation (Some u) (Some p) counselorId new_id now d v =
   (set_chat_conversations d (chat_conversations d ++ [row]),
    mkConversationView (enrich_conversation d row :: cv_conversations v) (Some new_id)
                       (cv_toasts v ++ [ConversationStarted]))) /\
  (u = p_id p ->
   is_profile_id d (p_id p) = false \/ is_profile_id d counselorId = false \/
   In new_id (map c_id (chat_conversations d)) ->
   createConversation (Some u) (Some p) counselorId new_id now d v = (d, conversation_failed v)) /\
  (u <> p_id p ->
   createConversation (Some u) (Some p) counselorId new_id now d v = (d, conversation_failed v)) /\
  createConversation (Some u) None counselorId new_id now d v = (d, conversation_failed v).
Proof.
  intros row; split; [|split; [|split]].
  - intros -> Hs Hc Hf.
    destruct (insert_conversation_spec (p_id p) d row) as [H1 [H2 _]].
    assert (Hok : snd (insert_conversation (Some (p_id p)) d row) = Ok tt).
    { apply H1; split; [reflexivity|]; split; [exact Hf|].
      unfold conversation_refs_ok, row; simpl; rewrite Hs, Hc; reflexivity. }
    specialize (H2 Hok); subst row.
    unfold createConversation; cbv beta iota zeta.
    revert Hok H2; destruct (insert_conversation _ _ _) as [d' r]; simpl; intros -> ->.
    unfold conversation_select_policy, uid_is; simpl.
    repeat (rewrite Nat.eqb_refl; simpl); reflexivity.
  - intros -> Hfail.
    destruct (insert_conversation_spec (p_id p) d row) as [H1 [_ [H3 _]]].
    assert (Hn : snd (insert_conversation (Some (p_id p)) d row) <> Ok tt).
    { rewrite H1; intros [_ [Hf Hr]]; unfold conversation_refs_ok, row in Hr; simpl in Hr.
      apply andb_true_iff in Hr as [Hs Hc].
      destruct Hfail as [H|[H|H]]; [congruence | congruence | contradiction]. }
    specialize (H3 Hn); subst row.
    unfold createConversation; cbv beta iota zeta.
    revert Hn H3; destruct (insert_conversation _ _ _) as [d' [x|e]]; simpl; intros Hn ->;
      [exfalso; apply Hn; destruct x; reflexivity | reflexivity].
  - intros Hne.
    pose proof (proj2 (proj2 (proj2 (insert_conversation_spec u d row))) Hne) as H4.
    subst row; unfold createConversation; cbv beta iota zeta.
    rewrite H4; reflexivity.
  - reflexivity.
Qed.

Lemma createConversation_outcome_witness :
  is_profile_id ex_db ex_student = true /\ is_profile_id ex_db ex_counselor = true /\
  ~ In 2 (map c_id (chat_conversations ex_db)) /\
  fst (createConversation (Some ex_student) (Some ex_student_profile) ex_counselor 2 100%Z
         ex_db (mkConversationView [] None [])) =
  set_chat_conversations ex_db
    [ex_conversation; mkConversation 2 ex_student ex_counselor (Some cs_active) (Some 100%Z)].
Proof.
  assert (Hs : is_profile_id ex_db ex_student = true) by reflexivity.
  assert (Hc : is_profile_id ex_db ex_counselor = true) by reflexivity.
  assert (Hf : ~ In 2 (map c_id (chat_conversations ex_db))) by (simpl; intros [H|[]]; discriminate).
  split; [exact Hs | split; [exact Hc | split; [exact Hf |]]].
  rewrite (proj1 (createConversation_outcome ex_student ex_student_profile ex_counselor 2 100%Z
                    ex_db (mkConversationView [] None [])) eq_refl Hs Hc Hf).
  reflexivity.
Defined.

(** ** sendMessage *)

Lemma sendMessage_skip (uid : option uuid) (profile : option profile)
    (env : send_env) (w : world) :
  js_trim (newMessage (w_chat w)) = [] \/ selectedConversation (w_chat w) = None \/
  profile = None ->
  sendMessage uid profile env w = (tt, w).
Proof.
  intros H; unfold sendMessage, bind, get; simpl.
  destruct H as [-> | [-> | ->]]; [reflexivity | |].
  - destruct (js_trim (newMessage (w_chat w))); reflexivity.
  - destruct (js_trim (newMessage (w_chat w))), (selectedConversation (w_chat w)); reflexivity.
Qed.

Lemma drop_js_whitespace_head (s : js_string) :
  match drop_js_whitespace s with
  | c :: _ => is_js_whitespace c = false
  | [] => True
  end.
Proof.
  induction s as [|c s IH]; simpl; [exact I|].
  destruct (is_js_whitespace c) eqn:E; [exact IH | exact E].
Qed.

Lemma drop_js_whitespace_suffix (s : js_string) :
  exists pre, s = pre ++ drop_js_whitespace s.
Proof.
  induction s as [|c s [pre IH]]; simpl; [exists []; reflexivity|].
  destruct (is_js_whitespace c); [exists (c :: pre); simpl; f_equal; exact IH | exists []; reflexivity].
Qed.

(** The trimmed text is empty or starts and ends with a code unit that
    is not white space. *)
Lemma js_trim_ends (s : js_string) :
  js_trim s = [] \/
  ((exists x rest, js_trim s = x :: rest /\ is_js_whitespace x = false) /\
   (exists y rest, rev (js_trim s) = y :: rest /\ is_js_whitespace y = false)).
Proof.
  unfold js_trim.
  set (a := drop_js_whitespace s).
  set (b := drop_js_whitespace (rev a)).
  pose proof (drop_js_whitespace_head (rev a)) as Hb; fold b in Hb.
  pose proof (drop_js_whitespace_head s) as Ha; fold a in Ha.
  destruct (drop_js_whitespace_suffix (rev a)) as [pre Hpre]; fold b in Hpre.
  destruct b as [|y b'] eqn:Eb; [left; reflexivity|right].
  rewrite rev_involutive; split; [|exists y, b'; split; [reflexivity | exact Hb]].
  assert (Ha' : a = rev (y :: b') ++ rev pre)
    by (rewrite <- rev_app_distr, <- Hpre, rev_involutive; reflexivity).
  destruct (rev (y :: b')) as [|x rest] eqn:Er.
  - apply (f_equal (@length N)) in Er; rewrite length_rev in Er; discriminate.
  - exists x, rest; split; [reflexivity|].
    rewrite Ha' in Ha; exact Ha.
Qed.

(** Every message [sendMessage] sends carries the trimmed input: a
    non-empty text that neither starts nor ends with white space. *)
Theorem sendMessage_sends_trimmed (uid : option uuid) (profile : option profile)
    (env : send_env) (w : world) :
  let w' := snd (sendMessage uid profile env w) in
  exists sent, w_trace w' = w_trace w ++ sent /\
  forall cid s c, In (ReqInsertMessage cid s c) sent ->
    c = js_trim (newMessage (w_chat w)) /\
    (exists x rest, c = x :: rest /\ is_js_whitespace x = false) /\
    (exists y rest, rev c = y :: rest /\ is_js_whitespace y = false).
Proof.
  intros w'; subst w'.
  destruct (js_trim (newMessage (w_chat w))) as [|ch rest] eqn:Ht.
  { rewrite sendMessage_skip by (left; exact Ht).
    exists []; split; [rewrite app_nil_r; reflexivity | intros ? ? ? []]. }
  destruct (selectedConversation (w_chat w)) as [cid|] eqn:Hs.
  2:{ rewrite sendMessage_skip by (right; left; exact Hs).
      exists []; split; [rewrite app_nil_r; reflexivity | intros ? ? ? []]. }
  destruct profile as [p|].
  2:{ rewrite sendMessage_skip by (right; right; reflexivity).
      exists []; split; [rewrite app_nil_r; reflexivity | intros ? ? ? []]. }
  assert (Hends : forall c, c = ch :: rest ->
            c = ch :: rest /\
            (exists x r, c = x :: r /\ is_js_whitespace x = false) /\
            (exists y r, rev c = y :: r /\ is_js_whitespace y = false)).
  { intros c ->; split; [reflexivity|].
    destruct (js_trim_ends (newMessage (w_chat w))) as [H|H]; rewrite Ht in H;
      [discriminate | exact H]. }
  rewrite (sendMessage_run uid p env w cid ch rest Ht Hs); cbv zeta.
  destruct (message_insert_policy _ _ _).
  - destruct (update_conversations _ _ _ _); simpl.
    eexists; split; [reflexivity|].
    intros cid' s c [H|[H|[]]]; [injection H as _ _ <-; apply Hends; reflexivity | discriminate].
  - simpl; eexists; split; [reflexivity|].
    intros cid' s c [H|[]]; injection H as _ _ <-; apply Hends; reflexivity.
Qed.

(** [sendMessage] never adds the message to the local list: either
    nothing is stored and the component state is unchanged (the input is
    kept), or exactly one message, with the trimmed input as content, is
    appended to [chat_messages] and the only change to the component
    state is the cleared input. *)
Theorem sendMessage_local_state (uid : option uuid) (profile : option profile)
    (env : send_env) (w : world) :
  let w' := snd (sendMessage uid profile env w) in
  (w_chat w' = w_chat w /\ chat_messages (w_db w') = chat_messages (w_db w)) \/
  (w_chat w' = mkChatState (selectedConversation (w_chat w)) (messages (w_chat w)) [] /\
   exists M, chat_messages (w_db w') = chat_messages (w_db w) ++ [M] /\
             m_content M = Some (js_trim (newMessage (w_chat w)))).
Proof.
  intros w'; subst w'.
  destruct (js_trim (newMessage (w_chat w))) as [|ch rest] eqn:Ht.
  { rewrite sendMessage_skip by (left; exact Ht); left; split; reflexivity. }
  destruct (selectedConversation (w_chat w)) as [cid|] eqn:Hs.
  2:{ rewrite sendMessage_skip by (right; left; exact Hs); left; split; reflexivity. }
  destruct profile as [p|].
  2:{ rewrite sendMessage_skip by (right; right; reflexivity); left; split; reflexivity. }
  rewrite (sendMessage_run uid p env w cid ch rest Ht Hs); cbv zeta.
  destruct (message_insert_policy _ _ _).
  - destruct (update_conversations _ _ _ _) as [d2 r] eqn:Eu; simpl; right.
    split; [reflexivity|].
    pose proof (update_conversations_messages uid
                  (set_chat_messages (w_db w) (chat_messages (w_db w) ++
                     [mkMessage (env_new_id env) cid (p_id p) (Some mt_text) (Some (ch :: rest))
                                (Some ms_sent) (env_insert_now env)]))
                  (fun c => Nat.eqb (c_id c) cid) (last_message_at_set (env_client_now env)))
      as Hm.
    rewrite Eu in Hm; simpl in Hm.
    eexists; split; [exact Hm | reflexivity].
  - simpl; left; split; reflexivity.
Qed.

(** ** Realtime merge *)

Lemma remove_first_notin (x : uuid) (l : list uuid) :
  existsb (Nat.eqb x) l = false -> remove_first x l = l.
Proof.
  induction l as [|y l IH]; simpl; [reflexivity|].
  destruct (Nat.eqb x y); simpl; [discriminate | intros H; f_equal; exact (IH H)].
Qed.

(** A fetch that finds no row the caller can read (a row of a
    conversation the caller is not in, or no row at all) appends nothing:
    [fetchMessageWithSender] swallows the error and the request just
    leaves the in-flight set. *)
Theorem fetch_unreadable_appends_nothing (uid : option uuid) (d : db) (cc : chat_client)
    (mid : uuid) :
  (forall M, In M (select_messages uid d) -> m_id M <> mid) ->
  chat_step uid d cc (FetchDone mid) =
  mkChatClient (cc_state cc) (remove_first mid (cc_inflight cc)).
Proof.
  intros Hno; simpl.
  destruct (existsb (Nat.eqb mid) (cc_inflight cc)) eqn:E.
  - unfold fetch_message_by_id.
    rewrite (filter_none (fun m => Nat.eqb (m_id m) mid)); [reflexivity|].
    intros M HM; apply Nat.eqb_neq, Hno, HM.
  - rewrite (remove_first_notin _ _ E); destruct cc; reflexivity.
Qed.

(** [ex_third] is in no conversation; its fetch of message 6, still in
    flight, comes back empty. *)
Lemma fetch_unreadable_appends_nothing_witness :
  chat_step (Some ex_third) ex_db2 (mkChatClient (cc_state ex_view) [6]) (FetchDone 6) =
  mkChatClient (cc_state ex_view) (remove_first 6 [6]).
Proof.
  apply (fetch_unreadable_appends_nothing (Some ex_third) ex_db2
           (mkChatClient (cc_state ex_view) [6]) 6).
  vm_compute; intros M [].
Defined.

Lemma single_in {R : Type} (l : list R) (x : R) : single l = Ok x -> In x l.
Proof.
  destruct l as [|y [|z l]]; simpl; try discriminate.
  intros H; injection H as ->; left; reflexivity.
Qed.

Lemma chat_step_no_load (uid : option uuid) (d : db) (cc : chat_client) (ev : chat_event) :
  ev <> LoadDone ->
  exists extra,
    cc_state (chat_step uid d cc ev) =
      set_messages (cc_state cc) (messages (cc_state cc) ++ extra) /\
    forall e, In e extra -> exists M, In M (select_messages uid d) /\ e = enrich d M.
Proof.
  intros Hne; destruct ev as [|mid|mid]; [contradiction| |].
  - exists []; rewrite app_nil_r; split; [destruct cc as [[] ?]; reflexivity | intros ? []].
  - simpl; destruct (existsb _ _).
    + destruct (fetch_message_by_id uid d mid) as [data|e] eqn:Ef; simpl.
      * exists [data]; split; [reflexivity|].
        intros e [<-|[]].
        apply single_in, in_map_iff in Ef as [M [HM Hin]].
        apply filter_In in Hin as [Hin _]; exists M; auto.
      * exists []; rewrite app_nil_r; split; [destruct cc as [[] ?]; reflexivity | intros ? []].
    + exists []; rewrite app_nil_r; split; [destruct cc as [[] ?]; reflexivity | intros ? []].
Qed.

(** Between history loads the local message list only grows at its end:
    after any sequence of notifications and completed fetches, the list
    it held is a prefix of the new one, every entry added is a row the
    caller can read (enriched with its sender), and the selection and the
    input are unchanged. *)
Theorem merge_only_appends (uid : option uuid) (d : db) (cc : chat_client)
    (evs : list chat_event) :
  ~ In LoadDone evs ->
  exists extra,
    cc_state (chat_run uid d cc evs) = set_messages (cc_state cc) (messages (cc_state cc) ++ extra) /\
    forall e, In e extra -> exists M, In M (select_messages uid d) /\ e = enrich d M.
Proof.
  unfold chat_run; revert cc; induction evs as [|ev evs IH]; intros cc Hno; simpl.
  - exists []; rewrite app_nil_r; split; [destruct cc as [[] ?]; reflexivity | intros ? []].
  - destruct (chat_step_no_load uid d cc ev) as [x1 [H1 R1]];
      [intros ->; apply Hno; left; reflexivity|].
    destruct (IH (chat_step uid d cc ev)) as [x2 [H2 R2]]; [intros H; apply Hno; right; exact H|].
    exists (x1 ++ x2); split.
    + rewrite H2, H1; unfold set_messages; simpl; rewrite app_assoc; reflexivity.
    + intros e He; apply in_app_or in He as [He|He]; auto.
Qed.

Lemma merge_only_appends_witness :
  exists extra,
    cc_state (chat_run (Some ex_student) ex_db2 ex_view [Notify 6; Notify 7; FetchDone 7]) =
    set_messages (cc_state ex_view) (messages (cc_state ex_view) ++ extra) /\
    forall e, In e extra -> exists M, In M (select_messages (Some ex_student) ex_db2) /\
                                      e = enrich ex_db2 M.
Proof.
  apply merge_only_appends; simpl; intuition discriminate.
Defined.
